(** * FLUQ Alpha 1.0: a shallow embedding of the round pipeline

    The JavaScript sources embedded here are
      - src/token/rewardEngine.js      (modules [RewardEngine], [RewardCLI])
      - src/utils/hash.js              (modules [HashUtils], [Digests])
      - src/mixer/mixRandomness.js     (module [Mixer])
      - src/detector/cheatDetector.js  (module [CheatDetector])
      - src/scoring/uniquenessScore.js (module [UniquenessScore])
      - src/utils/logger.js and src/index.js (modules [Logger], [Index],
        [Collect], [Utf16]),
    with the namespace objects of their exports in [Exports].

    JavaScript values are carried by the type [jsval]; IEEE-754 doubles are
    Rocq's [spec_float] at precision 53, and the integers Math.round
    produces are carried exactly; a JavaScript string is carried by the
    bytes of its UTF-8 encoding, which holds every string without an
    unpaired surrogate (the code units of a string, unpaired surrogates
    included, and their encoding are in [Utf16]); a Buffer is a
    [list byte].  A plain
    object held by value is the finite map of its own properties: the
    sources read such objects under fixed names that Object.prototype
    does not have.  The ledgers of the reward engine are read under
    arbitrary names and are mutable: they live in a heap, and a read
    falls back on Object.prototype.  What the operating system, the clock
    and the JavaScript engine decide is a parameter: the class [Runtime],
    the entropy tape and the inputs of a round. *)

From Stdlib Require Import ZArith NArith List String Ascii Strings.Byte.
From Stdlib Require Import SpecFloat Permutation Lia Bool.
From stdpp Require Import base option gmap strings list pretty finite.

Set Warnings "-register-all".
#[local] Open Scope string_scope.
#[local] Open Scope Z_scope.

(* ================================================================== *)
(** ** Exceptions and completion records *)

Inductive error :=
| TypeError (msg : string)
| Error (msg : string).

(** A call either returns a value or throws. *)
Inductive result (A : Type) :=
| Return (a : A)
| Throw (e : error).
Arguments Return {A} a.
Arguments Throw {A} e.

Definition rbind {A B} (r : result A) (k : A -> result B) : result B :=
  match r with
  | Return a => k a
  | Throw e => Throw e
  end.

Notation "'let!' x ':=' r 'in' k" := (rbind r (fun x => k))
  (at level 10, x name, r at level 100, k at level 200, only parsing).

Fixpoint rmap {A B} (f : A -> result B) (l : list A) : result (list B) :=
  match l with
  | [] => Return []
  | x :: l' =>
      let! y := f x in
      let! ys := rmap f l' in
      Return (y :: ys)
  end.

Definition throws {A} (r : result A) : bool :=
  match r with Throw _ => true | Return _ => false end.

(* ================================================================== *)
(** ** Numbers *)

(** A JavaScript number is a binary64 float. *)
Definition number := spec_float.

Module Num.
Definition prec : Z := 53.
Definition emax : Z := 1024.

Definition NaN : number := S754_nan.
Definition of_Z (z : Z) : number := binary_normalize prec emax z 0 false.
Definition of_nat (n : nat) : number := of_Z (Z.of_nat n).

Definition add : number -> number -> number := SFadd prec emax.
Definition sub : number -> number -> number := SFsub prec emax.
Definition mul : number -> number -> number := SFmul prec emax.
Definition div : number -> number -> number := SFdiv prec emax.
Definition sqrt : number -> number := SFsqrt prec emax.
Definition neg : number -> number := SFopp.

(** [x < y], [x <= y], [x > y], [x >= y]: false as soon as one side is
    NaN. *)
Definition lt (x y : number) : bool := SFltb x y.
Definition le (x y : number) : bool := SFleb x y.
Definition gt (x y : number) : bool := SFltb y x.
Definition ge (x y : number) : bool := SFleb y x.

(** Number.isNaN *)
Definition isNaN (x : number) : bool :=
  match x with S754_nan => true | _ => false end.

Definition is_zero (x : number) : bool :=
  match x with S754_zero _ => true | _ => false end.

(** Math.min and Math.max on two arguments: NaN is contagious and -0 is
    below +0. *)
Definition min (a b : number) : number :=
  if isNaN a || isNaN b then NaN
  else match SFcompare a b with
       | Some Lt => a
       | Some Gt => b
       | _ => match a with S754_zero true => a | _ => b end
       end.

Definition max (a b : number) : number :=
  if isNaN a || isNaN b then NaN
  else match SFcompare a b with
       | Some Lt => b
       | Some Gt => a
       | _ => match a with S754_zero false => a | _ => b end
       end.

(** The literals of the sources. *)
Definition zero : number := S754_zero false.
Definition one : number := of_Z 1.
Definition half : number := div (of_Z 1) (of_Z 2).
(** [dec n k] is the decimal literal n / 10^k (both exactly
    representable, so the correctly rounded quotient is the literal). *)
Definition dec (n : Z) (k : Z) : number := div (of_Z n) (of_Z (10 ^ k)).
End Num.

(** Integral numbers, as Math.round produces them: an integer, an
    infinity or NaN.  Integers are carried exactly. *)
Inductive integral :=
| INaN
| IInf (negative : bool)
| Int (z : Z).

Module Integral.
(** Math.round: the nearest integer, ties towards +infinity.  A finite
    double is [±m * 2^e]; for [e < 0] the result is
    [floor (±m / 2^-e + 1/2)]. *)
Definition round (x : number) : integral :=
  match x with
  | S754_nan => INaN
  | S754_infinity s => IInf s
  | S754_zero _ => Int 0
  | S754_finite s m e =>
      let v := cond_Zopp s (Zpos m) in
      if 0 <=? e then Int (v * 2 ^ e)
      else Int ((2 * v + 2 ^ (- e)) / 2 ^ (1 - e))
  end.

Definition min (a b : integral) : integral :=
  match a, b with
  | INaN, _ | _, INaN => INaN
  | IInf true, _ | _, IInf true => IInf true
  | IInf false, y => y
  | x, IInf false => x
  | Int x, Int y => Int (Z.min x y)
  end.

Definition max (a b : integral) : integral :=
  match a, b with
  | INaN, _ | _, INaN => INaN
  | IInf false, _ | _, IInf false => IInf false
  | IInf true, y => y
  | x, IInf true => x
  | Int x, Int y => Int (Z.max x y)
  end.

Definition lt (a b : integral) : bool :=
  match a, b with
  | INaN, _ | _, INaN => false
  | IInf true, IInf true => false
  | IInf true, _ => true
  | _, IInf true => false
  | IInf false, _ => false
  | _, IInf false => true
  | Int x, Int y => x <? y
  end.

Definition gt (a b : integral) : bool := lt b a.
Definition le (a b : integral) : bool :=
  match a, b with
  | INaN, _ | _, INaN => false
  | _, _ => negb (lt b a)
  end.
Definition ge (a b : integral) : bool := le b a.

(** The double that holds an integral value. *)
Definition to_number (a : integral) : number :=
  match a with
  | INaN => S754_nan
  | IInf s => S754_infinity s
  | Int z => Num.of_Z z
  end.
End Integral.

(* ================================================================== *)
(** ** Values *)

Inductive jsval :=
| VUndefined
| VNull
| VBool (b : bool)
| VNum (x : number)
| VStr (s : string)
| VBuf (bytes : list byte)                 (* a Node.js Buffer *)
| VArr (items : list jsval)                (* an Array *)
| VObj (props : gmap string jsval)         (* a plain object *)
| VFun (name : string)                     (* a function object *)
| VPromise (settled : jsval + error).      (* a settled Promise *)

(** The [typeof] operator. *)
Definition typeof (v : jsval) : string :=
  match v with
  | VUndefined => "undefined"
  | VNull => "object"
  | VBool _ => "boolean"
  | VNum _ => "number"
  | VStr _ => "string"
  | VBuf _ | VArr _ | VObj _ | VPromise _ => "object"
  | VFun _ => "function"
  end.

(** ToBoolean *)
Definition truthy (v : jsval) : bool :=
  match v with
  | VUndefined | VNull => false
  | VBool b => b
  | VNum x => negb (Num.isNaN x || Num.is_zero x)
  | VStr s => negb (String.eqb s "")
  | _ => true
  end.

(** [a || b] *)
Definition or_else (a b : jsval) : jsval := if truthy a then a else b.

Definition is_nullish (v : jsval) : bool :=
  match v with VUndefined | VNull => true | _ => false end.

(** The value a default parameter [x = d] binds. *)
Definition default_param (v d : jsval) : jsval :=
  match v with VUndefined => d | _ => v end.

(** Array.isArray *)
Definition Array_isArray (v : jsval) : bool :=
  match v with VArr _ => true | _ => false end.

(** Property read [o[k]] on the own properties of a plain object. *)
Definition getprop (o : gmap string jsval) (k : string) : jsval :=
  default VUndefined (o !! k).

(** [a === b].  Two objects are equal when they are the same object;
    the objects this development compares are the results of different
    calls, which are different objects. *)
Definition strict_equal (a b : jsval) : bool :=
  match a, b with
  | VUndefined, VUndefined | VNull, VNull => true
  | VBool x, VBool y => Bool.eqb x y
  | VNum x, VNum y => SFeqb x y
  | VStr x, VStr y => String.eqb x y
  | _, _ => false
  end.

(** String.prototype.includes *)
Fixpoint includes (s sub : string) : bool :=
  String.prefix sub s ||
  match s with
  | EmptyString => false
  | String _ s' => includes s' sub
  end.

(* ================================================================== *)
(** ** The runtime

    The built-ins of Node.js the sources call and whose results the
    language leaves to the implementation, or that live outside the
    repository. *)

Class Runtime := {
  (** Math.log2 (implementation-approximated) *)
  Math_log2 : number -> number;
  (** crypto.createHash('sha256').update(b).digest(): 32 bytes *)
  createHash_sha256 : list byte -> list byte;
  (** Number.prototype.toFixed *)
  Number_toFixed : number -> nat -> string;
  (** ToNumber on a string *)
  StringToNumber : string -> number;
  (** ToString on a number *)
  NumberToString : number -> string;
  (** ToString on an object (through ToPrimitive) *)
  ObjectToString : jsval -> string;
  (** Date.prototype.toISOString at a time in milliseconds *)
  Date_toISOString : Z -> string;
  (** JSON.stringify on one value; [None] is the result [undefined] *)
  JSON_stringify : jsval -> option string
}.

(** ToNumber *)
Definition ToNumber `{Runtime} (v : jsval) : number :=
  match v with
  | VUndefined => Num.NaN
  | VNull => Num.zero
  | VBool b => if b then Num.one else Num.zero
  | VNum x => x
  | VStr s => StringToNumber s
  | _ => StringToNumber (ObjectToString v)
  end.

(** The integer a number holds, when it holds one. *)
Definition integer_value (x : number) : option Z :=
  match x with
  | S754_zero _ => Some 0
  | S754_finite s m e =>
      let v := cond_Zopp s (Zpos m) in
      if 0 <=? e then Some (v * 2 ^ e)
      else if Zpos m mod 2 ^ (- e) =? 0 then Some (v / 2 ^ (- e))
      else None
  | _ => None
  end.

(** ToString on a number: integers below 10^21 print in decimal. *)
Definition ToString_number `{Runtime} (x : number) : string :=
  match x with
  | S754_nan => "NaN"
  | S754_infinity s => if s then "-Infinity" else "Infinity"
  | _ =>
      match integer_value x with
      | Some z => if Z.abs z <? 10 ^ 21 then pretty z else NumberToString x
      | None => NumberToString x
      end
  end.

(** ToString, as [String(v)], template literals and property keys apply
    it *)
Definition ToString `{Runtime} (v : jsval) : string :=
  match v with
  | VUndefined => "undefined"
  | VNull => "null"
  | VBool b => if b then "true" else "false"
  | VNum x => ToString_number x
  | VStr s => s
  | _ => ObjectToString v
  end.

(** The index keys of an array-like: "0", "1", ... *)
Definition indexed {A} (f : A -> jsval) (l : list A) : gmap string jsval :=
  list_to_map (imap (fun i x => (pretty i, f x)) l).

Definition byte_num (b : byte) : number := Num.of_Z (Z.of_N (Byte.to_N b)).

(** The own enumerable properties of a value held by value. *)
Definition own_props (v : jsval) : gmap string jsval :=
  match v with
  | VObj o => o
  | VArr items => indexed id items
  | VBuf bytes => indexed (fun b => VNum (byte_num b)) bytes
  | VStr s => indexed (fun c => VStr (String c "")) (list_ascii_of_string s)
  | _ => ∅
  end.

(* ================================================================== *)
(** ** src/token/rewardEngine.js *)

Module RewardEngine.

Record Reward := {
  score : integral;
  tokens : Z;
  category : string;
  reason : string
}.

(** computeReward(score) *)
Definition computeReward (score : jsval) : result Reward :=
  match score with
  | VNum x =>
      if Num.isNaN x
      then Throw (TypeError "computeReward: score must be a valid number")
      else
        (* Clamp to [0,100] *)
        let s := Integral.max (Int 0)
                   (Integral.min (Int 100) (Integral.round x)) in
        if Integral.gt s (Int 80) then
          Return {| score := s; tokens := 5;
                    category := "High Entropy";
                    reason := "Score above 80: highest reward bracket" |}
        else if Integral.ge s (Int 50) then
          Return {| score := s; tokens := 3;
                    category := "Medium Entropy";
                    reason :=
                      "Score between 50 and 80: medium reward bracket" |}
        else
          Return {| score := s; tokens := 1;
                    category := "Low Entropy";
                    reason := "Score below 50: baseline reward" |}
  | _ => Throw (TypeError "computeReward: score must be a valid number")
  end.

(** The objects of the caller live in a heap: an address holds the own
    properties of one object.  An argument is a value or the address of
    such an object. *)
Abbreviation loc := positive.
Abbreviation heap := (gmap positive (gmap string jsval)).

Inductive argument :=
| Val (v : jsval)
| Ref (l : loc).

(** A new object: an address the heap does not hold yet. *)
Definition alloc (h : heap) (o : gmap string jsval) : loc * heap :=
  let l := fresh (dom h) in (l, <[l := o]> h).

(** The objects the function creates are plain objects: a property they
    do not hold themselves is read from Object.prototype, which has these
    methods and the accessor __proto__ (whose value is the prototype, an
    object). *)
Definition Object_prototype : list string :=
  [ "constructor"; "hasOwnProperty"; "isPrototypeOf";
    "propertyIsEnumerable"; "toLocaleString"; "toString"; "valueOf";
    "__defineGetter__"; "__defineSetter__";
    "__lookupGetter__"; "__lookupSetter__" ].

Definition inherited (k : string) : jsval :=
  if bool_decide (k ∈ Object_prototype) then VFun k
  else if String.eqb k "__proto__" then VObj ∅
  else VUndefined.

(** [o[k]] on the object at an address *)
Definition load (h : heap) (l : loc) (k : string) : jsval :=
  match h !! l with
  | Some o =>
      match o !! k with
      | Some v => v
      | None => inherited k
      end
  | None => VUndefined
  end.

(** [o[k] = v] on the object at an address, for a value that is no
    object: the key __proto__ goes to the accessor, which ignores such a
    value. *)
Definition store (h : heap) (l : loc) (k : string) (v : jsval) : heap :=
  if String.eqb k "__proto__" then h
  else alter (fun o => <[k := v]> o) l h.

(** The own enumerable properties Object.assign reads from a source. *)
Definition props_of (h : heap) (a : argument) : gmap string jsval :=
  match a with
  | Val v => own_props v
  | Ref l => default ∅ (h !! l)
  end.

(** Object.assign(target, source), target at address [l]: every
    property of the source is assigned to the target (the entries of a
    ledger are numbers: one under the key __proto__ is not copied). *)
Definition Object_assign (h : heap) (l : loc) (src : argument) : heap :=
  alter (fun o => delete "__proto__" (props_of h src) ∪ o) l h.

Record Award := {
  updatedBalances : loc;
  awarded : Z;
  meta : Reward
}.

Section WithRuntime.
Context `{Runtime}.

(** awardTokensToBalance(minerId, balances = {}, score) *)
Definition awardTokensToBalance (h : heap) (minerId : jsval)
    (balances : argument) (score : jsval) : result Award * heap :=
  (* the default value of the parameter is a new empty object *)
  let '(balances, h) :=
    match balances with
    | Val VUndefined => let '(l, h) := alloc h ∅ in (Ref l, h)
    | _ => (balances, h)
    end in
  match minerId with
  | VStr id =>
      if String.eqb id "" then
        (Throw (TypeError
           "awardTokensToBalance: minerId must be a non-empty string"), h)
      else
        let is_object :=
          match balances with
          | Ref _ => true
          | Val VNull => false
          | Val v => String.eqb (typeof v) "object"
          end in
        if negb is_object then
          (Throw (TypeError
             "awardTokensToBalance: balances must be an object (or omitted)"),
           h)
        else
          match computeReward score with
          | Throw e => (Throw e, h)
          | Return result =>
              let awarded := tokens result in
              (* clone balances to avoid mutating input *)
              let '(updatedBalances, h) := alloc h ∅ in
              let h := Object_assign h updatedBalances balances in
              let prev :=
                ToNumber (or_else (load h updatedBalances id)
                                  (VNum Num.zero)) in
              let h := store h updatedBalances id
                         (VNum (Num.add prev (Num.of_Z awarded))) in
              (Return {| updatedBalances := updatedBalances;
                         awarded := awarded;
                         meta := result |}, h)
          end
  | _ =>
      (Throw (TypeError
         "awardTokensToBalance: minerId must be a non-empty string"), h)
  end.
End WithRuntime.

End RewardEngine.


(* ================================================================== *)
(** ** Buffers and encodings *)

Definition byte_of_N (n : N) : byte :=
  default x00 (Byte.of_N (n mod 256)%N).

(** Buffer.from(s, 'utf8'): the string is its UTF-8 encoding already.
    The encoding itself, from the code units of a string, is
    [Utf16.Buffer_from_utf8]: it is not injective on strings that hold an
    unpaired surrogate. *)
Definition utf8 (s : string) : list byte := list_byte_of_string s.

Definition hex_digit (n : N) : ascii :=
  nth (N.to_nat n) (list_ascii_of_string "0123456789abcdef") "0"%char.

Definition hex_of_byte (b : byte) : string :=
  let n := Byte.to_N b in
  String (hex_digit (n / 16)%N) (String (hex_digit (n mod 16)%N) "").

(** buf.toString('hex') *)
Definition hex_of_bytes (l : list byte) : string :=
  fold_right (fun b acc => hex_of_byte b ++ acc) "" l.

Definition hex_value (c : ascii) : option N :=
  let n := N_of_ascii c in
  if ((48 <=? n) && (n <=? 57))%N then Some (n - 48)%N
  else if ((97 <=? n) && (n <=? 102))%N then Some (n - 87)%N
  else if ((65 <=? n) && (n <=? 70))%N then Some (n - 55)%N
  else None.

(** The test of the regular expression /^[0-9a-fA-F]+$/ *)
Definition all_hex (s : string) : bool :=
  forallb (fun c => bool_decide (is_Some (hex_value c)))
          (list_ascii_of_string s).

Definition is_hex (s : string) : bool :=
  negb (String.eqb s "") && all_hex s.

(** Buffer.from(s, 'hex'): pairs of digits, up to the first pair that is
    not hexadecimal. *)
Fixpoint bytes_of_hex (s : string) : list byte :=
  match s with
  | String a (String b s') =>
      match hex_value a, hex_value b with
      | Some x, Some y => byte_of_N (16 * x + y) :: bytes_of_hex s'
      | _, _ => []
      end
  | _ => []
  end.

(** ToUint8 of a number: truncate, then modulo 256. *)
Definition ToUint8 (x : number) : byte :=
  match x with
  | S754_finite s m e =>
      let v := cond_Zopp s (Zpos m) in
      let t := if 0 <=? e then v * 2 ^ e else Z.quot v (2 ^ (- e)) in
      byte_of_N (Z.to_N (t mod 256))
  | _ => x00
  end.

(** Buffer.from(array): one byte per item. *)
Definition Buffer_from_array `{Runtime} (items : list jsval) : list byte :=
  map (fun v => ToUint8 (ToNumber v)) items.

(** Buffer.concat *)
Definition Buffer_concat (parts : list (list byte)) : list byte :=
  concat parts.

(* ================================================================== *)
(** ** Randomness

    The operating system's generator is a tape of draws; each call
    consumes what it needs. *)

Definition tape := list nat.

Definition draw (t : tape) : nat * tape :=
  match t with
  | [] => (0%nat, [])
  | r :: t' => (r, t')
  end.

(** crypto.randomInt(min, max): an integer n with min <= n < max.  The
    calls of the sources all have min < max. *)
Definition randomInt (t : tape) (min max : nat) : nat * tape :=
  let '(r, t) := draw t in
  ((min + r mod (max - min))%nat, t).

(** crypto.randomBytes(n) *)
Fixpoint randomBytes (t : tape) (n : nat) : list byte * tape :=
  match n with
  | O => ([], t)
  | S n' =>
      let '(r, t) := draw t in
      let '(bs, t) := randomBytes t n' in
      (byte_of_N (N.of_nat r) :: bs, t)
  end.

(* ================================================================== *)
(** ** src/utils/hash.js *)

Module HashUtils.
Section WithRuntime.
Context `{Runtime}.

(** toBuffer(input): Buffer, string, Uint8Array or Array of bytes *)
Definition toBuffer (input : jsval) : result (list byte) :=
  match input with
  | VBuf b => Return b
  | VStr s => Return (utf8 s)
  | VArr items => Return (Buffer_from_array items)
  | _ => Throw (TypeError "Unsupported input type for hashing")
  end.

(** sha256(input): lowercase hex of the digest *)
Definition sha256 (input : jsval) : result string :=
  let! buf := toBuffer input in
  Return (hex_of_bytes (createHash_sha256 buf)).

End WithRuntime.
End HashUtils.

(* ================================================================== *)
(** ** src/mixer/mixRandomness.js *)

Module Mixer.

(** [tmp = arr[i]; arr[i] = arr[j]; arr[j] = tmp], on indices of the
    array. *)
Definition swap {A} (arr : list A) (i j : nat) : list A :=
  match arr !! i, arr !! j with
  | Some tmp, Some aj => <[j := tmp]> (<[i := aj]> arr)
  | _, _ => arr
  end.

(** The loop of secureShuffle: [for (let i = ...; i > 0; i--)] *)
Fixpoint shuffle_from {A} (i : nat) (arr : list A) (t : tape)
  : list A * tape :=
  match i with
  | O => (arr, t)
  | S i' =>
      (* randomInt upper bound is exclusive *)
      let '(j, t) := randomInt t 0 (i + 1) in
      shuffle_from i' (swap arr i j) t
  end.

(** secureShuffle(buffers): Fisher-Yates on a copy *)
Definition secureShuffle {A} (buffers : list A) (t : tape)
  : list A * tape :=
  shuffle_from (length buffers - 1) buffers t.

Record MixResult := {
  finalHash : string;
  shuffledHex : list string;
  concatenatedHex : string;
  preImageHex : string
}.

Section WithRuntime.
Context `{Runtime}.

(** toBuffer(x): Buffer, hex string, or utf8 string; anything else
    through JSON. *)
Definition toBuffer (x : jsval) : result (list byte) :=
  match x with
  | VBuf b => Return b
  | VStr s =>
      if is_hex s && (Nat.even (String.length s))
      then Return (bytes_of_hex s)
      else Return (utf8 s)
  | _ =>
      match JSON_stringify x with
      | Some s => Return (utf8 s)
      | None =>
          Throw (TypeError
            ("The first argument must be of type string or an instance "
             ++ "of Buffer, ArrayBuffer, or Array or an Array-like Object."))
      end
  end.

(** sha256Hex(buf) *)
Definition sha256Hex (buf : list byte) : string :=
  hex_of_bytes (createHash_sha256 buf).

(** [opts.name] *)
Definition opt (opts : jsval) (name : string) : result jsval :=
  match opts with
  | VUndefined | VNull =>
      Throw (TypeError "Cannot read properties of null")
  | VObj o => Return (getprop o name)
  | _ => Return VUndefined
  end.

(** The buffers of the optional fields, in the order the function
    computes them. *)
Definition optional_fields (opts : jsval)
  : result (list byte * list byte * list byte) :=
  let! salt := opt opts "salt" in
  let! saltBuf := if truthy salt then toBuffer salt else Return [] in
  let! roundId := opt opts "roundId" in
  let! roundBuf :=
    if negb (is_nullish roundId)
    then toBuffer (VStr (ToString roundId))
    else Return [] in
  let! prevHash := opt opts "prevHash" in
  let! prevBuf :=
    if truthy prevHash then toBuffer prevHash else Return [] in
  Return (saltBuf, roundBuf, prevBuf).

(** [if (b.length > 0) parts.push(b)] *)
Definition push_nonempty (parts : list (list byte)) (b : list byte)
  : list (list byte) :=
  if (0 <? length b)%nat then (parts ++ [b])%list else parts.

(** mixRandomness(inputs, opts = {}).  The function is async: what it
    returns or throws is how the promise of the call settles. *)
Definition mixRandomness (inputs opts : jsval) (t : tape)
  : result MixResult * tape :=
  let opts := default_param opts (VObj ∅) in
  match inputs with
  | VArr items =>
      (* Convert inputs to Buffers *)
      match rmap toBuffer items with
      | Throw e => (Throw e, t)
      | Return buffers =>
          match optional_fields opts with
          | Throw e => (Throw e, t)
          | Return (saltBuf, roundBuf, prevBuf) =>
              (* Secure shuffle the buffers *)
              let '(shuffled, t) := secureShuffle buffers t in
              let shuffledHex := map hex_of_bytes shuffled in
              (* [salt || roundId || prevHash || shuffled pieces...] *)
              let concatenationParts := [] in
              let concatenationParts :=
                push_nonempty concatenationParts saltBuf in
              let concatenationParts :=
                push_nonempty concatenationParts roundBuf in
              let concatenationParts :=
                push_nonempty concatenationParts prevBuf in
              let concatenationParts := (concatenationParts ++ shuffled)%list in
              let concatenated := Buffer_concat concatenationParts in
              let finalHash := sha256Hex concatenated in
              (Return {| finalHash := finalHash;
                         shuffledHex := shuffledHex;
                         concatenatedHex := hex_of_bytes concatenated;
                         preImageHex := hex_of_bytes concatenated |}, t)
          end
      end
  | _ =>
      (Throw (Error "inputs must be an array of Buffers or strings"), t)
  end.

End WithRuntime.
End Mixer.

(* ================================================================== *)
(** ** Iteration and property tables *)

(** [for (const x of v)]: the items of a Buffer, an Array or a string
    (a string of ASCII characters item per character). *)
Definition iterate (v : jsval) : result (list jsval) :=
  match v with
  | VBuf bytes => Return (map (fun b => VNum (byte_num b)) bytes)
  | VArr items => Return items
  | VStr s =>
      Return (map (fun c => VStr (String c "")) (list_ascii_of_string s))
  | _ => Throw (TypeError "object is not iterable")
  end.

(** [v.length] of an iterable *)
Definition length_of (v : jsval) : nat :=
  match v with
  | VBuf bytes => length bytes
  | VArr items => length items
  | VStr s => String.length s
  | _ => 0%nat
  end.

(** A counter object [{}] filled by [o[k] = (o[k] || 0) + 1]: the keys in
    the order of their creation, each with its count. *)
Definition counters := list (string * nat).

Fixpoint count_of (o : counters) (k : string) : nat :=
  match o with
  | [] => 0%nat
  | (k', n) :: o' => if String.eqb k' k then n else count_of o' k
  end.

Fixpoint bump (o : counters) (k : string) : counters :=
  match o with
  | [] => [(k, 1%nat)]
  | (k', n) :: o' =>
      if String.eqb k' k then (k', S n) :: o' else (k', n) :: bump o' k
  end.

Fixpoint parse_digits (acc : N) (s : string) : option N :=
  match s with
  | EmptyString => Some acc
  | String c s' =>
      let n := N_of_ascii c in
      if ((48 <=? n) && (n <=? 57))%N
      then parse_digits (10 * acc + (n - 48))%N s'
      else None
  end.

(** The array index a property key denotes, if it is one. *)
Definition array_index (k : string) : option N :=
  match k with
  | EmptyString => None
  | _ =>
      match parse_digits 0 k with
      | Some n =>
          if String.eqb (pretty n) k && (n <? 4294967295)%N
          then Some n else None
      | None => None
      end
  end.

Fixpoint insert_sorted (x : N * nat) (l : list (N * nat)) : list (N * nat) :=
  match l with
  | [] => [x]
  | y :: l' =>
      if (fst x <=? fst y)%N then x :: y :: l' else y :: insert_sorted x l'
  end.

(** Object.values: the index keys in ascending order, then the other
    keys in the order of their creation. *)
Definition Object_values (o : counters) : list nat :=
  let idx := omap (fun '(k, n) => (fun i => (i, n)) <$> array_index k) o in
  let others :=
    omap (fun '(k, n) =>
            match array_index k with Some _ => None | None => Some n end) o in
  (map snd (foldr insert_sorted [] idx) ++ others)%list.

(* ================================================================== *)
(** ** src/detector/cheatDetector.js *)

Module CheatDetector.

Record CheatResult := {
  cheated : bool;
  reason : option string          (* [None] is null *)
}.

Section WithRuntime.
Context `{Runtime}.

(** calculateEntropy(buffer) *)
Definition calculateEntropy (buffer : jsval) : result number :=
  let! items := iterate buffer in
  let freq := foldl (fun freq byte => bump freq (ToString byte)) [] items in
  let total := Num.of_nat (length_of buffer) in
  Return
    (foldl (fun entropy count =>
              let p := Num.div (Num.of_nat count) total in
              Num.sub entropy (Num.mul p (Math_log2 p)))
           Num.zero (Object_values freq)).

(** [buf1[i] === buf2[i]] for an item of the first argument and a
    byte of the second *)
Definition same_byte (item : jsval) (b : byte) : bool :=
  strict_equal item (VNum (byte_num b)).

(** The loop of bufferSimilarity: the count of equal positions among
    the first [min] ones. *)
Fixpoint count_same (items : list jsval) (bytes : list byte) : nat :=
  match items, bytes with
  | x :: items', b :: bytes' =>
      ((if same_byte x b then 1 else 0) + count_same items' bytes')%nat
  | _, _ => 0%nat
  end.

(** bufferSimilarity(buf1, buf2); the second argument is a Buffer,
    which is never falsy *)
Definition bufferSimilarity (buf1 : jsval) (buf2 : list byte)
  : result number :=
  if negb (truthy buf1) then Return Num.zero else
  let! items := iterate buf1 in
  let same := count_same items buf2 in
  let len := Nat.min (length_of buf1) (length buf2) in
  (* return percentage *)
  Return (Num.mul (Num.div (Num.of_nat same) (Num.of_nat len))
                  (Num.of_Z 100)).

(** The loop of the repetition check.  [repetitions[byte]] and
    [currentRandomness.length] are integers, so
    [repetitions[byte] > length * 0.5] is [length < 2 * count]. *)
Fixpoint repetition_loop (len : nat) (repetitions : counters)
    (items : list jsval) : bool :=
  match items with
  | [] => false
  | byte :: items' =>
      let k := ToString byte in
      let repetitions := bump repetitions k in
      if (len <? 2 * count_of repetitions k)%nat then true
      else repetition_loop len repetitions items'
  end.

(** detectCheating(currentRandomness, previousRandomness = null) *)
Definition detectCheating (currentRandomness : jsval)
    (previousRandomness : option (list byte)) : result CheatResult :=
  let result := {| cheated := false; reason := None |} in
  (* 1. Repetition Check *)
  let! items := iterate currentRandomness in
  if repetition_loop (length_of currentRandomness) [] items then
    Return {| cheated := true;
              reason := Some "Too many repeated values (low randomness)" |}
  else
    (* 2. Similarity Check (vs previous round) *)
    let! similar :=
      match previousRandomness with
      | Some previous =>
          let! similarity :=
            bufferSimilarity currentRandomness previous in
          if Num.gt similarity (Num.of_Z 85) then
            Return (Some
              {| cheated := true;
                 reason := Some
                   ("Randomness is suspiciously similar to previous round ("
                    ++ Number_toFixed similarity 2 ++ "%)") |})
          else Return None
      | None => Return None
      end in
    match similar with
    | Some r => Return r
    | None =>
        (* 3. Entropy Check *)
        let! entropy := calculateEntropy currentRandomness in
        if Num.lt entropy (Num.of_Z 4) then
          Return {| cheated := true;
                    reason := Some ("Entropy too low ("
                                    ++ Number_toFixed entropy 2 ++ ")") |}
        else
          (* If everything is OK *)
          Return result
    end.

End WithRuntime.
End CheatDetector.

(* ================================================================== *)
(** ** src/scoring/uniquenessScore.js *)

Module UniquenessScore.

Record ScoreResult := {
  score : integral;
  category : string;
  breakdown : gmap string jsval
}.

(** POPCNT_TABLE[x & 0xff]: the number of one bits of a byte *)
Definition popcnt8 (x : Z) : nat :=
  length (filter (fun i => Z.testbit (Z.land x 255) (Z.of_nat i) = true)
                 (seq 0 8)).

Definition byte_Z (b : byte) : Z := Z.of_N (Byte.to_N b).

(** The number of entries of [buf] equal to the byte value [i]:
    [freq[i]] after the counting loop. *)
Definition freq_at (buf : list byte) (i : N) : nat :=
  length (filter (fun b => Byte.to_N b = i) buf).

(** buf.slice(i, i + blockSize) for i = 0, blockSize, 2 blockSize, ...
    The recursion is on a bound on the number of blocks. *)
Fixpoint blocks_upto (n : nat) (buf : list byte) (blockSize : nat)
  : list (list byte) :=
  match n, buf with
  | _, [] => []
  | O, _ => []
  | S n', _ =>
      take blockSize buf :: blocks_upto n' (drop blockSize buf) blockSize
  end.

Section WithRuntime.
Context `{Runtime}.

(** toBuffer(x) *)
Definition toBuffer (x : jsval) : result (list byte) :=
  match x with
  | VBuf b => Return b
  | VStr s => Return (utf8 s)
  | VArr items => Return (Buffer_from_array items)
  | _ => Throw (TypeError "Input must be Buffer, string, or byte array")
  end.

(** concatBuffers(arr) *)
Definition concatBuffers (arr : list jsval) : result (list byte) :=
  let! buffers := rmap toBuffer arr in
  Return (Buffer_concat buffers).

(** shannonEntropyBits(buf) *)
Definition shannonEntropyBits (buf : list byte) : number :=
  if (length buf =? 0)%nat then Num.zero
  else
    let len := Num.of_nat (length buf) in
    let ent :=
      foldl (fun ent i =>
               let f := freq_at buf i in
               if (f =? 0)%nat then ent
               else
                 let p := Num.div (Num.of_nat f) len in
                 Num.sub ent (Num.mul p (Math_log2 p)))
            Num.zero (map N.of_nat (seq 0 256)) in
    (* bits per byte *)
    Num.mul ent Num.one.

(** normalizedBitSimilarity(bufA, bufB) *)
Definition normalizedBitSimilarity (bufA bufB : jsval) : result number :=
  let! a := toBuffer bufA in
  let! b := toBuffer bufB in
  let len := Nat.min (length a) (length b) in
  if (len =? 0)%nat then Return Num.zero
  else
    let diffBits :=
      foldl (fun diffBits '(x, y) =>
               (diffBits + popcnt8 (Z.lxor (byte_Z x) (byte_Z y)))%nat)
            0%nat (zip a b) in
    let totalBits := (len * 8)%nat in
    let hamming := Num.div (Num.of_nat diffBits) (Num.of_nat totalBits) in
    let similarity := Num.sub Num.one hamming in
    Return similarity.

(** blockEntropies(buf, blockSize) *)
Definition blockEntropies (buf : list byte) (blockSize : nat)
  : list number :=
  map shannonEntropyBits (blocks_upto (length buf) buf blockSize).

(** mean(arr) *)
Definition mean (arr : list number) : number :=
  if (length arr =? 0)%nat then Num.zero
  else Num.div (foldl (fun s v => Num.add s v) Num.zero arr)
               (Num.of_nat (length arr)).

(** stddev(arr) *)
Definition stddev (arr : list number) : number :=
  if (length arr =? 0)%nat then Num.zero
  else
    let m := mean arr in
    let v :=
      Num.div
        (foldl (fun s x =>
                  Num.add s (Num.mul (Num.sub x m) (Num.sub x m)))
               Num.zero arr)
        (Num.of_nat (length arr)) in
    Num.sqrt v.

(** [options.name] *)
Definition option_of (options : jsval) (name : string) : result jsval :=
  match options with
  | VUndefined | VNull =>
      Throw (TypeError "Cannot read properties of null")
  | VObj o => Return (getprop o name)
  | _ => Return VUndefined
  end.

Definition defaultWeights : gmap string jsval :=
  {[ "entropy" := VNum (Num.dec 4 1);
     "nonRepeat" := VNum (Num.dec 25 2);
     "amount" := VNum (Num.dec 2 1);
     "variation" := VNum (Num.dec 15 2) ]}.

(** The loop over previousRounds: the largest similarity, a round
    whose comparison throws being skipped. *)
Definition max_similarity (buf : list byte) (previousRounds : list jsval)
  : number :=
  foldl (fun maxSim prev =>
           match normalizedBitSimilarity (VBuf buf) prev with
           | Return sim => if Num.gt sim maxSim then sim else maxSim
           | Throw _ => maxSim
           end)
        Num.zero previousRounds.

(** [Number(x.toFixed(4))] *)
Definition fixed4 (x : number) : jsval :=
  VNum (StringToNumber (Number_toFixed x 4)).

(** The contributions of a call: the items of an array, or the one
    value, null and undefined left out. *)
Definition normalize_inputs (allRandomness : jsval) : list jsval :=
  let inputs :=
    match allRandomness with
    | VArr items => items
    | _ => [allRandomness]
    end in
  filter (fun x => is_nullish x = false) inputs.

(** computeUniquenessScore(allRandomness, options = {}) *)
Definition computeUniquenessScore (allRandomness options : jsval)
  : result ScoreResult :=
  let options := default_param options (VObj ∅) in
  (* Normalize inputs *)
  let inputs := normalize_inputs allRandomness in
  if (length inputs =? 0)%nat then
    Return {| score := Int 0;
              category := "Low";
              breakdown :=
                {[ "entropyNorm" := VNum Num.zero;
                   "nonRepeatNorm" := VNum Num.zero;
                   "amountNorm" := VNum Num.zero;
                   "variationNorm" := VNum Num.zero;
                   "weights" := VObj ∅ ]} |}
  else
    let! buffers := rmap toBuffer inputs in
    let! buf := concatBuffers (map VBuf buffers) in
    let! previousRounds := option_of options "previousRounds" in
    let previousRounds :=
      match previousRounds with VArr l => l | _ => [] end in
    let! maxBits := option_of options "maxBits" in
    let maxBits := or_else maxBits (VNum (Num.of_Z 2048)) in
    let! w := option_of options "weights" in
    let weights :=
      own_props (or_else w (VObj ∅)) ∪ defaultWeights in
    (* 1) Entropy estimate *)
    let entropyPerByte := shannonEntropyBits buf in
    let entropyBitsTotal :=
      Num.mul entropyPerByte (Num.of_nat (length buf)) in
    let entropyNorm :=
      Num.min (Num.div entropyPerByte (Num.of_Z 8)) Num.one in
    (* 2) Amount of input randomness *)
    let totalBits := Num.of_nat (length buf * 8) in
    let amountNorm :=
      Num.min (Num.div totalBits (ToNumber maxBits)) Num.one in
    (* 3) Variation across blocks *)
    let blockSize := 32%nat in
    let blockEnt := blockEntropies buf blockSize in
    let meanBlockEnt := mean blockEnt in
    let sdBlockEnt := stddev blockEnt in
    let cov :=
      if Num.gt meanBlockEnt (Num.dec 1 4)
      then Num.div sdBlockEnt meanBlockEnt else Num.zero in
    let variationNorm := Num.min (Num.div cov Num.half) Num.one in
    (* 4) Non-repeatability *)
    let nonRepeatNorm :=
      if (0 <? length previousRounds)%nat
      then Num.max Num.zero
             (Num.sub Num.one (max_similarity buf previousRounds))
      else Num.one in
    (* Combine metrics using weights *)
    let weight k := ToNumber (getprop weights k) in
    let combined :=
      Num.add
        (Num.add
           (Num.add (Num.mul entropyNorm (weight "entropy"))
                    (Num.mul nonRepeatNorm (weight "nonRepeat")))
           (Num.mul amountNorm (weight "amount")))
        (Num.mul variationNorm (weight "variation")) in
    let scoreFloat := Num.max Num.zero (Num.min Num.one combined) in
    let score := Integral.round (Num.mul scoreFloat (Num.of_Z 100)) in
    (* Category mapping *)
    let category :=
      if Integral.ge score (Int 85) then "High Entropy"
      else if Integral.ge score (Int 65) then "Moderate-High"
      else if Integral.ge score (Int 40) then "Moderate"
      else "Low" in
    Return
      {| score := score;
         category := category;
         breakdown :=
           {[ "entropyPerByte" := fixed4 entropyPerByte;
              "entropyBitsTotal" :=
                VNum (Integral.to_number (Integral.round entropyBitsTotal));
              "entropyNorm" := fixed4 entropyNorm;
              "amountBits" := VNum totalBits;
              "amountNorm" := fixed4 amountNorm;
              "variationCov" := fixed4 cov;
              "variationNorm" := fixed4 variationNorm;
              "nonRepeatNorm" := fixed4 nonRepeatNorm;
              "weights" := VObj weights ]} |}.

End WithRuntime.
End UniquenessScore.

(* ================================================================== *)
(** ** Module namespaces

    [import * as m from '...'] binds a namespace object: a property per
    export.  A function export takes its arguments and the entropy tape. *)

Definition fn := list jsval -> tape -> result jsval * tape.
Abbreviation namespace := (gmap string fn).

Definition arg (args : list jsval) (i : nat) : jsval :=
  nth i args VUndefined.

Definition pure_fn (f : list jsval -> result jsval) : fn :=
  fun args t => (f args, t).

(** [typeof m.name === 'function'] *)
Definition is_function (m : namespace) (name : string) : bool :=
  bool_decide (is_Some (m !! name)).

(** [m.name(args)], for the namespace bound to the identifier [id]:
    calling a property that is undefined throws. *)
Definition call_member (id : string) (m : namespace) (name : string)
    (args : list jsval) (t : tape) : result jsval * tape :=
  match m !! name with
  | Some f => f args t
  | None => (Throw (TypeError (id ++ "." ++ name ++ " is not a function")), t)
  end.

Module Exports.
Section WithRuntime.
Context `{Runtime}.

Definition of_reward (r : RewardEngine.Reward) : jsval :=
  VObj {[ "score" := VNum (Integral.to_number (RewardEngine.score r));
          "tokens" := VNum (Num.of_Z (RewardEngine.tokens r));
          "category" := VStr (RewardEngine.category r);
          "reason" := VStr (RewardEngine.reason r) ]}.

Definition of_award (h : RewardEngine.heap) (a : RewardEngine.Award)
  : jsval :=
  VObj {[ "updatedBalances" :=
            VObj (default ∅ (h !! RewardEngine.updatedBalances a));
          "awarded" := VNum (Num.of_Z (RewardEngine.awarded a));
          "meta" := of_reward (RewardEngine.meta a) ]}.

Definition of_mix (r : Mixer.MixResult) : jsval :=
  VObj {[ "finalHash" := VStr (Mixer.finalHash r);
          "shuffledHex" := VArr (map VStr (Mixer.shuffledHex r));
          "concatenatedHex" := VStr (Mixer.concatenatedHex r);
          "preImageHex" := VStr (Mixer.preImageHex r) ]}.

Definition of_cheat (r : CheatDetector.CheatResult) : jsval :=
  VObj {[ "cheated" := VBool (CheatDetector.cheated r);
          "reason" := match CheatDetector.reason r with
                      | Some s => VStr s
                      | None => VNull
                      end ]}.

Definition of_score (r : UniquenessScore.ScoreResult) : jsval :=
  VObj {[ "score" := VNum (Integral.to_number (UniquenessScore.score r));
          "category" := VStr (UniquenessScore.category r);
          "breakdown" := VObj (UniquenessScore.breakdown r) ]}.

(** A previous round is a Buffer, or absent. *)
Definition previous_of (v : jsval) : option (list byte) :=
  match v with VBuf b => Some b | _ => None end.

Definition computeReward : fn :=
  pure_fn (fun args =>
    let! r := RewardEngine.computeReward (arg args 0) in
    Return (of_reward r)).

Definition awardTokensToBalance : fn :=
  pure_fn (fun args =>
    let '(r, h) :=
      RewardEngine.awardTokensToBalance ∅ (arg args 0)
        (RewardEngine.Val (arg args 1)) (arg args 2) in
    let! a := r in
    Return (of_award h a)).

(** An async function returns a promise, settled by what its body
    returns or throws. *)
Definition mixRandomness : fn :=
  fun args t =>
    let '(r, t) := Mixer.mixRandomness (arg args 0) (arg args 1) t in
    (Return (VPromise match r with
                      | Return m => inl (of_mix m)
                      | Throw e => inr e
                      end), t).

Definition detectCheating : fn :=
  pure_fn (fun args =>
    let! r := CheatDetector.detectCheating (arg args 0)
                (previous_of (arg args 1)) in
    Return (of_cheat r)).

Definition computeUniquenessScore : fn :=
  pure_fn (fun args =>
    let! r := UniquenessScore.computeUniquenessScore
                (arg args 0) (arg args 1) in
    Return (of_score r)).

Definition sha256 : fn :=
  pure_fn (fun args =>
    let! h := HashUtils.sha256 (arg args 0) in
    Return (VStr h)).

(** src/token/rewardEngine.js: two named exports. *)
Definition rewardEngine : namespace :=
  {[ "computeReward" := computeReward;
     "awardTokensToBalance" := awardTokensToBalance ]}.

(** src/mixer/mixRandomness.js *)
Definition mixer : namespace :=
  {[ "mixRandomness" := mixRandomness; "default" := mixRandomness ]}.

(** src/detector/cheatDetector.js *)
Definition cheatDetector : namespace :=
  {[ "detectCheating" := detectCheating;
     "check" := detectCheating;
     "default" := detectCheating ]}.

(** src/scoring/uniquenessScore.js *)
Definition uniquenessScore : namespace :=
  {[ "computeUniquenessScore" := computeUniquenessScore;
     "evaluate" := computeUniquenessScore;
     "default" := computeUniquenessScore ]}.

(** src/utils/hash.js exports sha256, blake2b, keccak256 and hashAll;
    index.js reads the properties sha256 and sha512 only (the three
    other exports are in [Digests]). *)
Definition hashUtils : namespace :=
  {[ "sha256" := sha256 ]}.
End WithRuntime.
End Exports.

(* ================================================================== *)
(** ** src/utils/logger.js *)

Module Logger.
Inductive level := Debug | Info | Warn | Err.

(** One line of the console per call: its level and its message (the
    timestamp of the line is left out).  The functions take one
    parameter: further arguments of a call are evaluated and dropped. *)
Definition line : Type := level * string.
End Logger.

(* ================================================================== *)
(** ** src/index.js *)

Module Index.

(** What a round reads from outside: the clock, the environment and the
    buffers safeCollect produced for the four collectors. *)
Record Inputs := {
  now : Z;                                  (* Date.now() *)
  record_time : Z;                          (* new Date(), for the record *)
  PREV_ROUND_HASH : option string;          (* process.env *)
  mouseBuf : list byte;
  keyboardBuf : list byte;
  cpuBuf : list byte;
  cryptoBuf : list byte
}.

Record world := {
  entropy : tape;
  console : list Logger.line
}.

Definition M (A : Type) : Type := world -> result A * world.

Definition ret {A} (a : A) : M A := fun w => (Return a, w).
Definition throw {A} (e : error) : M A := fun w => (Throw e, w).
Definition bind {A B} (c : M A) (k : A -> M B) : M B :=
  fun w =>
    match c w with
    | (Return a, w') => k a w'
    | (Throw e, w') => (Throw e, w')
    end.

Notation "x <- c ;; k" := (bind c (fun x => k))
  (at level 100, c at next level, right associativity).
Notation "c ;;; k" := (bind c (fun _ => k))
  (at level 100, right associativity).

Definition log (l : Logger.level) (msg : string) : M unit :=
  fun w => (Return tt, {| entropy := entropy w;
                          console := (console w ++ [(l, msg)])%list |}).
Definition info := log Logger.Info.
Definition warn := log Logger.Warn.
Definition error := log Logger.Err.

Definition random_bytes (n : nat) : M (list byte) :=
  fun w =>
    let '(bs, t) := randomBytes (entropy w) n in
    (Return bs, {| entropy := t; console := console w |}).

(** [m.name(args)], for the namespace bound to [id] *)
Definition call (id : string) (m : namespace) (name : string)
    (args : list jsval) : M jsval :=
  fun w =>
    let '(r, t) := call_member id m name args (entropy w) in
    (r, {| entropy := t; console := console w |}).

Definition lift {A} (r : result A) : M A := fun w => (r, w).

(** The modules index.js imports. *)
Record Imports := {
  mixer : namespace;
  cheatDetector : namespace;
  uniquenessScore : namespace;
  rewardEngine : namespace;
  hashUtils : namespace
}.

Record Reveal := {
  node_id : string;
  round_id : string;
  E_i : jsval;
  s_i : string;
  commit : jsval
}.

Record RoundRecord := {
  rec_round_id : string;
  prev_root_hash : string;
  timestamp : string;
  reveals : list (string * jsval);          (* node_id, commit *)
  R_round : jsval;
  awarded : jsval
}.

(** [s.padEnd(n, '0')] *)
Definition padEnd0 (s : string) (n : nat) : string :=
  s ++ string_of_list_ascii (repeat "0"%char (n - String.length s)).

(** [s.slice(0, n)] on a string *)
Definition slice0 (s : string) (n : nat) : string := substring 0 n s.

Section WithRuntime.
Context `{Runtime}.

(** bufferToHex(buf) *)
Definition bufferToHex (buf : jsval) : string :=
  if negb (truthy buf) then ""
  else match buf with
       | VBuf b => hex_of_bytes b
       | _ => ToString buf
       end.

(** [v.name] *)
Definition property (v : jsval) (name : string) : result jsval :=
  match v with
  | VUndefined | VNull =>
      Throw (TypeError ("Cannot read properties of undefined (reading '"
                        ++ name ++ "')"))
  | VObj o => Return (getprop o name)
  | _ =>
      if String.eqb name "length" then
        match v with
        | VStr _ | VArr _ | VBuf _ =>
            Return (VNum (Num.of_nat (length_of v)))
        | _ => Return VUndefined
        end
      else Return (getprop (own_props v) name)
  end.

(** [id.slice(0, n)] for the value [v] of the identifier [id]: strings,
    arrays and buffers have the method. *)
Definition slice_method (id : string) (v : jsval) (n : nat) : result jsval :=
  match v with
  | VStr s => Return (VStr (slice0 s n))
  | VArr items => Return (VArr (take n items))
  | VBuf b => Return (VBuf (take n b))
  | VUndefined | VNull =>
      Throw (TypeError "Cannot read properties of undefined (reading 'slice')")
  | _ => Throw (TypeError (id ++ ".slice is not a function"))
  end.

(** [a + b] on two values one of which is a string *)
Definition concat_str (a b : jsval) : string := ToString a ++ ToString b.

Definition reveal_object (r : Reveal) : jsval :=
  VObj {[ "node_id" := VStr (node_id r);
          "round_id" := VStr (round_id r);
          "E_i" := E_i r;
          "s_i" := VStr (s_i r);
          "commit" := commit r ]}.

(** [E_i + s_i + roundId], the text that is committed to *)
Definition commitInput (E_i : jsval) (s_i roundId : string) : string :=
  concat_str E_i (VStr s_i) ++ roundId.

(** [[prevRoundHash, roundId, ...E_list]] *)
Definition mixInputArray (prevRoundHash roundId : string)
    (E_list : list jsval) : list jsval :=
  VStr prevRoundHash :: VStr roundId :: E_list.

(** The commitment of the round: [hashUtils.sha256(E_i + s_i + roundId)] *)
Definition commitment (E_i s_i roundId : string) : result string :=
  HashUtils.sha256 (VStr (commitInput (VStr E_i) s_i roundId)).

(** The verification of a reveal: the hash is computed again from the
    disclosed values, and [recomputed !== commit] aborts the round. *)
Definition verified (commit E_i s_i roundId : string) : bool :=
  match HashUtils.sha256 (VStr (commitInput (VStr E_i) s_i roundId)) with
  | Return recomputed => strict_equal (VStr recomputed) (VStr commit)
  | Throw _ => false
  end.

(** runRound(), from the collected buffers on *)
Definition runRound_with (im : Imports) (inp : Inputs)
  : M (option RoundRecord) :=
  info "--- FLUQ Alpha 1.0: Starting round ---" ;;;
  (* metadata *)
  let roundId := "round-" ++ pretty (now inp) in
  let zeros := string_of_list_ascii (repeat "0"%char 64) in
  let prevRoundHash :=
    match PREV_ROUND_HASH inp with
    | Some e => if String.eqb e "" then zeros else e
    | None => zeros
    end in
  info ("Round ID: " ++ roundId) ;;;
  info ("Prev round hash: " ++ prevRoundHash) ;;;
  info ("Collecting entropy from collectors "
        ++ "(mouse, keyboard, cpu, crypto)...") ;;;
  (* Convert to hex strings for deterministic concatenation *)
  let piece buf := slice0 (padEnd0 (bufferToHex (VBuf buf)) 64) 64 in
  let mouse := piece (mouseBuf inp) in
  let keyboard := piece (keyboardBuf inp) in
  let cpu := piece (cpuBuf inp) in
  let crypto := piece (cryptoBuf inp) in
  info "Collected pieces:" ;;;
  (* Build E_i *)
  let concatenatedHex := mouse ++ keyboard ++ cpu ++ crypto in
  E_i <- call "hashUtils" (hashUtils im) "sha512" [VStr concatenatedHex] ;;
  E_prefix <- lift (slice_method "E_i" E_i 24) ;;
  info ("E_i (512-bit hex prefix): " ++ ToString E_prefix ++ "...") ;;;
  (* Local secret s_i *)
  secret <- random_bytes 32 ;;
  let s_i := hex_of_bytes secret in
  info ("s_i (secret) prefix: " ++ slice0 s_i 12 ++ "...") ;;;
  (* Commit: sha256(E_i || s_i || roundId) *)
  commit <- call "hashUtils" (hashUtils im) "sha256"
              [VStr (commitInput E_i s_i roundId)] ;;
  info ("Commit (sha256): " ++ ToString commit) ;;;
  (* Reveal locally (simulate): verify commit *)
  recomputed <- call "hashUtils" (hashUtils im) "sha256"
                  [VStr (commitInput E_i s_i roundId)] ;;
  if negb (strict_equal recomputed commit) then
    error "Local commit verification failed; aborting." ;;;
    ret None
  else
    (info "Commit verified locally." ;;;
     let reveal := {| node_id := "local-node-0"; round_id := roundId;
                      E_i := E_i; s_i := s_i; commit := commit |} in
     let reveals := [reveal] in
     (* Mixer *)
     let E_list := map Index.E_i reveals in
     roundSeed <- call "mixer" (mixer im) "mixRandomness"
                    [VArr (mixInputArray prevRoundHash roundId E_list)] ;;
     seed_prefix <- lift (slice_method "roundSeed" roundSeed 16) ;;
     info ("R_round (final seed) prefix: " ++ ToString seed_prefix ++ "...") ;;;
     (* Cheat detection *)
     let revealsArg := VArr (map reveal_object reveals) in
     cheatResult <-
       (if is_function (cheatDetector im) "check"
        then call "cheatDetector" (cheatDetector im) "check" [revealsArg]
        else if is_function (cheatDetector im) "default"
        then call "cheatDetector" (cheatDetector im) "default" [revealsArg]
        else ret (VObj {[ "cheated" := VBool false ]})) ;;
     flagged <-
       (if truthy cheatResult
        then c <- lift (property cheatResult "cheated") ;; ret (truthy c)
        else ret false) ;;
     (if flagged : bool
      then _ <- lift (property cheatResult "reason") ;;
           warn "Cheating detected:"
      else info "No cheating detected.") ;;;
     (* Uniqueness scoring *)
     scoreResult <-
       (if is_function (uniquenessScore im) "evaluate"
        then call "uniquenessScore" (uniquenessScore im) "evaluate"
               [VArr E_list]
        else if is_function (uniquenessScore im) "default"
        then call "uniquenessScore" (uniquenessScore im) "default"
               [VArr E_list]
        else ret (VObj {[ "score" := VNum (Num.of_Z 50);
                          "category" := VStr "Unknown" ]})) ;;
     score <- lift (property scoreResult "score") ;;
     category <- lift (property scoreResult "category") ;;
     info ("Uniqueness score: " ++ ToString score
           ++ " (" ++ ToString category ++ ")") ;;;
     (* Reward allocation *)
     tokensAwarded <-
       (if is_function (rewardEngine im) "allocate"
        then call "rewardEngine" (rewardEngine im) "allocate" [score]
        else if is_function (rewardEngine im) "default"
        then call "rewardEngine" (rewardEngine im) "default" [score]
        else ret (VNum Num.zero)) ;;
     info ("Tokens awarded this round: " ++ ToString tokensAwarded
           ++ " FLQ") ;;;
     (* Construct round record *)
     let record :=
       {| rec_round_id := roundId;
          prev_root_hash := prevRoundHash;
          timestamp := Date_toISOString (record_time inp);
          reveals := map (fun r => (node_id r, Index.commit r)) reveals;
          R_round := roundSeed;
          awarded := tokensAwarded |} in
     info "Round record:" ;;;
     info "--- FLUQ Alpha 1.0: Round complete ---" ;;;
     ret (Some record)).
End WithRuntime.
End Index.

(* ================================================================== *)
(** ** Strings as UTF-16 code units, and the commitment of src/index.js
       on them *)

Module Utf16.

(** A JavaScript string is a sequence of 16-bit code units. *)
Definition js_string : Type := list N.

(** The surrogates: D800..DBFF lead a pair, DC00..DFFF trail it. *)
Definition is_high (u : N) : bool := ((55296 <=? u) && (u <=? 56319))%N.
Definition is_low (u : N) : bool := ((56320 <=? u) && (u <=? 57343))%N.

(** The code point of a surrogate pair. *)
Definition code_point (hi lo : N) : N :=
  (65536 + (hi - 55296) * 1024 + (lo - 56320))%N.

(** The UTF-8 bytes of a code point: one to four of them. *)
Definition utf8_of_code_point (c : N) : list byte :=
  if (c <? 128)%N then [byte_of_N c]
  else if (c <? 2048)%N then
    [byte_of_N (192 + c / 64); byte_of_N (128 + c mod 64)]
  else if (c <? 65536)%N then
    [byte_of_N (224 + c / 4096); byte_of_N (128 + (c / 64) mod 64);
     byte_of_N (128 + c mod 64)]
  else
    [byte_of_N (240 + c / 262144); byte_of_N (128 + (c / 4096) mod 64);
     byte_of_N (128 + (c / 64) mod 64); byte_of_N (128 + c mod 64)].

(** Buffer.from(s, 'utf8'): a surrogate pair is one code point, a
    surrogate without its partner is encoded as U+FFFD. *)
Fixpoint Buffer_from_utf8 (s : js_string) : list byte :=
  match s with
  | [] => []
  | u :: s' =>
      if is_high u then
        match s' with
        | v :: s'' =>
            if is_low v
            then (utf8_of_code_point (code_point u v)
                  ++ Buffer_from_utf8 s'')%list
            else (utf8_of_code_point 65533 ++ Buffer_from_utf8 s')%list
        | [] => utf8_of_code_point 65533
        end
      else if is_low u
      then (utf8_of_code_point 65533 ++ Buffer_from_utf8 s')%list
      else (utf8_of_code_point u ++ Buffer_from_utf8 s')%list
  end.


(** The code units of a text of ASCII characters. *)
Definition units (s : string) : js_string :=
  map N_of_ascii (list_ascii_of_string s).

(** The value that carries a string: the text of its UTF-8 encoding. *)
Definition value (s : js_string) : jsval :=
  VStr (string_of_list_byte (Buffer_from_utf8 s)).

Section WithRuntime.
Context `{Runtime}.

(** [hashUtils.sha256(E_i + s_i + roundId)]: the strings are
    concatenated, the text is encoded and hashed. *)
Definition commitment (E_i s_i roundId : js_string) : result string :=
  HashUtils.sha256 (value (E_i ++ s_i ++ roundId)%list).

(** [recomputed !== commit] is false: the reveal is accepted. *)
Definition verified (commit : string) (E_i s_i roundId : js_string) : bool :=
  match HashUtils.sha256 (value (E_i ++ s_i ++ roundId)%list) with
  | Return recomputed => strict_equal (VStr recomputed) (VStr commit)
  | Throw _ => false
  end.
End WithRuntime.


End Utf16.

(* ================================================================== *)
(** ** A runtime to evaluate the embedding

    SHA-256 is the function of FIPS 180-4 and toFixed the algorithm of the
    language specification; log2 is computed to 60 fraction bits.  The
    conversions between values and text cover numbers, strings, buffers
    and arrays; they print the properties of an object in the order of
    the keys, not of their creation.  No statement below depends on the
    choices made here: the properties hold for every runtime. *)

Module Reference.

(** *** SHA-256 *)

Definition w32 (x : Z) : Z := x mod 2 ^ 32.

Definition rotr (n x : Z) : Z :=
  w32 (Z.lor (Z.shiftr x n) (Z.shiftl x (32 - n))).

Definition xor3 (a b c : Z) : Z := Z.lxor (Z.lxor a b) c.

Definition Ch (x y z : Z) : Z :=
  Z.lxor (Z.land x y) (Z.land (Z.lxor x (2 ^ 32 - 1)) z).
Definition Maj (x y z : Z) : Z :=
  xor3 (Z.land x y) (Z.land x z) (Z.land y z).
Definition Sigma0 (x : Z) : Z := xor3 (rotr 2 x) (rotr 13 x) (rotr 22 x).
Definition Sigma1 (x : Z) : Z := xor3 (rotr 6 x) (rotr 11 x) (rotr 25 x).
Definition sigma0 (x : Z) : Z := xor3 (rotr 7 x) (rotr 18 x) (Z.shiftr x 3).
Definition sigma1 (x : Z) : Z := xor3 (rotr 17 x) (rotr 19 x) (Z.shiftr x 10).

(** The first 64 primes, 2 to 311. *)
Definition is_prime (n : nat) : bool :=
  forallb (fun d => negb (n mod d =? 0)%nat) (seq 2 (n - 2)).

Definition primes64 : list Z :=
  map Z.of_nat (filter (fun n => is_prime n = true) (seq 2 310)).

(** The integer cube root, bit by bit from bit [k - 1] down. *)
Fixpoint cube_root_bits (k : nat) (n r : Z) : Z :=
  match k with
  | O => r
  | S k' =>
      let c := r + 2 ^ Z.of_nat k' in
      cube_root_bits k' n (if c * c * c <=? n then c else r)
  end.

(** The round constants: the first 32 bits of the fractional parts of
    the cube roots of the first 64 primes. *)
Definition K256 : list Z :=
  map (fun q => w32 (cube_root_bits 40 (q * 2 ^ 96) 0)) primes64.

(** The initial hash value: the first 32 bits of the fractional parts of
    the square roots of the first 8 primes. *)
Definition H256 : list Z :=
  map (fun q => w32 (Z.sqrt (q * 2 ^ 64))) (take 8 primes64).

(** The big-endian bytes of a number, [n] of them. *)
Fixpoint be_bytes (n : nat) (x : Z) : list Z :=
  match n with
  | O => []
  | S n' => (Z.shiftr x (8 * Z.of_nat n') mod 256) :: be_bytes n' x
  end.

Definition be_word (bs : list Z) : Z :=
  foldl (fun acc b => acc * 256 + b) 0 bs.

(** The message, a one bit, zeros up to 56 modulo 64, the bit length. *)
Definition pad (msg : list Z) : list Z :=
  let len := Z.of_nat (length msg) in
  let zeros := Z.to_nat ((55 - len) mod 64) in
  (msg ++ [128] ++ repeat 0 zeros ++ be_bytes 8 (8 * len))%list.

(** [chunks fuel n l]: [l] cut into pieces of [n] items. *)
Fixpoint chunks {A} (fuel n : nat) (l : list A) : list (list A) :=
  match fuel, l with
  | _, [] => []
  | O, _ => []
  | S fuel', _ => take n l :: chunks fuel' n (drop n l)
  end.

(** The message schedule: [w] holds W(0..t-1), most recent first. *)
Fixpoint schedule (n : nat) (w : list Z) : list Z :=
  match n with
  | O => w
  | S n' =>
      let wt := w32 (sigma1 (nth 1 w 0) + nth 6 w 0
                     + sigma0 (nth 14 w 0) + nth 15 w 0) in
      schedule n' (wt :: w)
  end.

Definition round256 (st : list Z) (kw : Z * Z) : list Z :=
  match st with
  | [a; b; c; d; e; f; g; h] =>
      let t1 := h + Sigma1 e + Ch e f g + fst kw + snd kw in
      let t2 := Sigma0 a + Maj a b c in
      [w32 (t1 + t2); a; b; c; w32 (d + t1); e; f; g]
  | _ => st
  end.

Definition compress (hs : list Z) (block : list Z) : list Z :=
  let w0 := map be_word (chunks 16 4 block) in
  let w := rev (schedule 48 (rev w0)) in
  let st := foldl round256 hs (zip K256 w) in
  zip_with (fun x y => w32 (x + y)) hs st.

Definition sha256 (msg : list byte) : list byte :=
  let m := pad (map (fun b => Z.of_N (Byte.to_N b)) msg) in
  let hs := foldl compress H256 (chunks (length m) 64 m) in
  map (fun z => byte_of_N (Z.to_N z)) (concat (map (be_bytes 4) hs)).

(** *** Numbers and text *)

(** log2 of a positive integer, to [bits] fraction bits: the integer
    part, then one bit per squaring. *)
Fixpoint log2_fraction (bits : nat) (y : Z) (acc : Z) : Z :=
  match bits with
  | O => acc
  | S bits' =>
      let y2 := Z.shiftr (y * y) 64 in
      if 2 ^ 65 <=? y2
      then log2_fraction bits' (Z.shiftr y2 1) (2 * acc + 1)
      else log2_fraction bits' y2 (2 * acc)
  end.

Definition log2 (x : number) : number :=
  match x with
  | S754_nan => S754_nan
  | S754_zero _ => S754_infinity true
  | S754_infinity s => if s then S754_nan else x
  | S754_finite true _ _ => S754_nan
  | S754_finite false m e =>
      let n := Z.log2 (Zpos m) in
      (* y = m / 2^n in [1, 2), with 64 fraction bits *)
      let y := Z.shiftr (Z.shiftl (Zpos m) 64) n in
      let frac := log2_fraction 60 y 0 in
      binary_normalize Num.prec Num.emax ((e + n) * 2 ^ 60 + frac) (-60) false
  end.

(** The digits of [n] with at least [k + 1] of them. *)
Definition digits_padded (n : Z) (k : nat) : string :=
  let d := pretty (Z.to_N n) in
  string_of_list_ascii (repeat "0"%char (S k - String.length d)) ++ d.

(** toFixed for a magnitude below 10^21: n is the integer nearest to
    x * 10^f, the larger one on a tie. *)
Definition toFixed_finite (s : bool) (m : positive) (e : Z) (f : nat)
  : string :=
  let p := 10 ^ Z.of_nat f in
  let n := if 0 <=? e then Zpos m * 2 ^ e * p
           else (2 * Zpos m * p + 2 ^ (- e)) / 2 ^ (1 - e) in
  let d := digits_padded n f in
  let k := (String.length d - f)%nat in
  (if s then "-" else "") ++
  (if (f =? 0)%nat then d
   else substring 0 k d ++ "." ++ substring k f d).

Definition toFixed (x : number) (f : nat) : string :=
  match x with
  | S754_nan => "NaN"
  | S754_infinity s => if s then "-Infinity" else "Infinity"
  | S754_zero _ => toFixed_finite false 1 (-2000) f
  | S754_finite s m e => toFixed_finite s m e f
  end.

(** A decimal literal: sign, digits, fraction. *)
Definition parse_decimal (s : string) : number :=
  let '(neg, body) :=
    match s with
    | String "-"%char r => (true, r)
    | String "+"%char r => (false, r)
    | _ => (false, s)
    end in
  let '(int_part, frac_part) :=
    match index 0 "." body with
    | Some i => (substring 0 i body,
                 substring (S i) (String.length body) body)
    | None => (body, "")
    end in
  match parse_digits 0 (int_part ++ frac_part) with
  | Some n =>
      if String.eqb (int_part ++ frac_part) "" then S754_nan
      else
        let v := Num.div (Num.of_Z (Z.of_N n))
                         (Num.of_Z (10 ^ Z.of_nat (String.length frac_part))) in
        if neg then Num.neg v else v
  | None => S754_nan
  end.

Definition string_to_number (s : string) : number :=
  if String.eqb s "" then Num.zero
  else if String.eqb s "Infinity" then S754_infinity false
  else if String.eqb s "-Infinity" then S754_infinity true
  else parse_decimal s.

(** A number that is no integer, printed with 20 fraction digits. *)
Definition number_to_string (x : number) : string := toFixed x 20.

Definition text_of_number (x : number) : string :=
  match x with
  | S754_nan => "NaN"
  | S754_infinity s => if s then "-Infinity" else "Infinity"
  | _ =>
      match integer_value x with
      | Some z => pretty z
      | None => number_to_string x
      end
  end.

(** ToString on any value; the items of an array are joined by commas. *)
Fixpoint value_to_string (v : jsval) : string :=
  match v with
  | VUndefined => "undefined"
  | VNull => "null"
  | VBool b => if b then "true" else "false"
  | VNum x => text_of_number x
  | VStr s => s
  | VBuf b => string_of_list_byte b
  | VArr items =>
      String.concat ","
        (map (fun i => if is_nullish i then "" else value_to_string i) items)
  | VObj _ => "[object Object]"
  | VFun name => "function " ++ name ++ "() { [native code] }"
  | VPromise _ => "[object Promise]"
  end.

Definition quoted (s : string) : string :=
  let q := ascii_of_nat 34 in String q (s ++ String q "").

(** JSON.stringify, to a depth. *)
Fixpoint json (depth : nat) (v : jsval) : option string :=
  match v with
  | VUndefined | VFun _ => None
  | VNull => Some "null"
  | VBool b => Some (if b then "true" else "false")
  | VNum x =>
      Some (match x with
            | S754_nan | S754_infinity _ => "null"
            | _ => text_of_number x
            end)
  | VStr s => Some (quoted s)
  | VPromise _ => Some "{}"
  | VBuf b =>
      Some ("{" ++ quoted "type" ++ ":" ++ quoted "Buffer" ++ ","
            ++ quoted "data" ++ ":["
            ++ String.concat ","
                 (map (fun x => pretty (Byte.to_N x)) b) ++ "]}")
  | VArr items =>
      match depth with
      | O => None
      | S depth' =>
          Some ("[" ++ String.concat ","
                         (map (fun i => default "null" (json depth' i)) items)
                ++ "]")
      end
  | VObj o =>
      match depth with
      | O => None
      | S depth' =>
          Some ("{" ++ String.concat ","
                  (omap (fun '(k, x) =>
                           (fun t => quoted k ++ ":" ++ t) <$> json depth' x)
                        (map_to_list o))
                ++ "}")
      end
  end.

(** The civil date of a day count from 1970-01-01. *)
Definition civil_of_days (z : Z) : Z * Z * Z :=
  let z := z + 719468 in
  let era := z / 146097 in
  let doe := z - era * 146097 in
  let yoe := (doe - doe / 1460 + doe / 36524 - doe / 146096) / 365 in
  let y := yoe + era * 400 in
  let doy := doe - (365 * yoe + yoe / 4 - yoe / 100) in
  let mp := (5 * doy + 2) / 153 in
  let d := doy - (153 * mp + 2) / 5 + 1 in
  let m := if mp <? 10 then mp + 3 else mp - 9 in
  (if m <=? 2 then y + 1 else y, m, d).

Definition two (n : Z) : string := digits_padded n 1.

Definition toISOString (ms : Z) : string :=
  let '(y, m, d) := civil_of_days (ms / 86400000) in
  let t := ms mod 86400000 in
  digits_padded y 3 ++ "-" ++ two m ++ "-" ++ two d ++ "T"
  ++ two (t / 3600000) ++ ":" ++ two (t / 60000 mod 60) ++ ":"
  ++ two (t / 1000 mod 60) ++ "." ++ digits_padded (t mod 1000) 2 ++ "Z".

#[export] Instance runtime : Runtime := {|
  Math_log2 := log2;
  createHash_sha256 := sha256;
  Number_toFixed := toFixed;
  StringToNumber := string_to_number;
  NumberToString := number_to_string;
  ObjectToString := value_to_string;
  Date_toISOString := toISOString;
  JSON_stringify := json 64
|}.

End Reference.

(* ================================================================== *)
(** ** The round, as the repository wires it *)

Section Round.
Context `{Runtime}.

(** The modules index.js imports, as the repository has them. *)
Definition imports : Index.Imports :=
  {| Index.mixer := Exports.mixer;
     Index.cheatDetector := Exports.cheatDetector;
     Index.uniquenessScore := Exports.uniquenessScore;
     Index.rewardEngine := Exports.rewardEngine;
     Index.hashUtils := Exports.hashUtils |}.

(** runRound() *)
Definition runRound : Index.Inputs -> Index.M (option Index.RoundRecord) :=
  Index.runRound_with imports.

(** The imports with a sha512 added to the hash module and another
    mixer. *)
Definition patched_imports (sha512 mix : fn) : Index.Imports :=
  {| Index.mixer := {[ "mixRandomness" := mix ]};
     Index.cheatDetector := Exports.cheatDetector;
     Index.uniquenessScore := Exports.uniquenessScore;
     Index.rewardEngine := Exports.rewardEngine;
     Index.hashUtils := <[ "sha512" := sha512 ]> Exports.hashUtils |}.

End Round.

(** A stand-in for the missing sha512: 128 hex characters. *)
Definition sha512_standin : fn :=
  pure_fn (fun args =>
    let! h := HashUtils.sha256 (H := Reference.runtime) (arg args 0) in
    Return (VStr (h ++ h))).

(** A mixer that returns the seed itself, as index.js expects it. *)
Definition sync_mixer : fn :=
  fun args t =>
    let '(r, t) :=
      Mixer.mixRandomness (H := Reference.runtime)
        (arg args 0) (arg args 1) t in
    (match r with
     | Return m => Return (VStr (Mixer.finalHash m))
     | Throw e => Throw e
     end, t).

Definition sample_inputs : Index.Inputs :=
  {| Index.now := 1700000000000;
     Index.record_time := 1700000000042;
     Index.PREV_ROUND_HASH := None;
     Index.mouseBuf := repeat x01 32;
     Index.keyboardBuf := repeat x02 32;
     Index.cpuBuf := repeat x03 32;
     Index.cryptoBuf := repeat x04 32 |}.

Definition sample_world : Index.world :=
  {| Index.entropy := seq 0 40; Index.console := [] |}.


(** The draws that move the digest to the front of the mixer's inputs:
    32 for the secret, then 0 and 1 for the shuffle. *)
Definition shuffling_world : Index.world :=
  {| Index.entropy := (repeat 0%nat 32 ++ [0%nat; 1%nat])%list;
     Index.console := [] |}.

(** The digest the stand-in gives for the pieces of [sample_inputs]. *)
Definition sample_digest : string :=
  let pieces :=
    hex_of_bytes (repeat x01 32) ++ hex_of_bytes (repeat x02 32)
    ++ hex_of_bytes (repeat x03 32) ++ hex_of_bytes (repeat x04 32) in
  match sha512_standin [VStr pieces] [] with
  | (Return (VStr digest), _) => digest
  | _ => ""
  end.

(* ================================================================== *)
(** ** src/index.js: the collection of a contribution *)

Module Collect.

(** [x.replace(/^0x/, '')] *)
Definition strip_0x (x : string) : string :=
  match x with
  | String "0"%char (String "x"%char rest) => rest
  | _ => x
  end.

(** normalizeToBuffer(x) *)
Definition normalizeToBuffer (x : jsval) (t : tape) : list byte * tape :=
  if negb (truthy x) then randomBytes t 32
  else
    match x with
    | VBuf b => (b, t)
    | VStr x =>
        (* assume hex (strip 0x if present) *)
        let s := strip_0x x in
        (* if string length odd or not hex, fallback *)
        if negb (is_hex s) || negb (Nat.even (String.length s))
        then (utf8 s, t)
        else (bytes_of_hex s, t)
    | VObj o =>
        match getprop o "hex" with
        | VStr hex => (bytes_of_hex (strip_0x hex), t)
        | _ => randomBytes t 32
        end
    | _ =>
        (* fallback to random *)
        randomBytes t 32
    end.



End Collect.

(* ================================================================== *)
(** ** src/token/rewardEngine.js: the command line *)

Module RewardCLI.

Inductive stream := Stdout | Stderr.

(** What a run of the script leaves: the lines it printed and the code
    it exited with. *)
Record Run := {
  printed : list (stream * string);
  exit_code : Z
}.

Definition message (e : error) : string :=
  match e with TypeError msg | Error msg => msg end.

Section WithRuntime.
Context `{Runtime}.

(** JSON.stringify(obj, null, 2) and the text console.log prints for an
    object; both are left to the runtime. *)
Variable JSON_stringify_indented : jsval -> string.
Variable inspect : jsval -> string.

(** prettyPrint(obj) *)
Definition prettyPrint (obj : jsval) : stream * string :=
  (Stdout, JSON_stringify_indented obj).

(** The script run with the arguments [argv] (process.argv.slice(2)) *)
Definition main (argv : list string) : Run :=
  let failed out e :=
    let line := (Stderr, "Error (rewardEngine CLI): " ++ message e) in
    {| printed := (out ++ [line])%list; exit_code := 1 |} in
  match argv with
  | [] =>
      {| printed :=
           [ (Stdout,
              "Usage: node src/token/rewardEngine.js <score> [minerId]");
             (Stdout, "Example: node src/token/rewardEngine.js 87 miner1") ];
         exit_code := 0 |}
  | scoreRaw :: rest =>
      let minerId :=
        or_else (nth 0 (map VStr rest) VUndefined) (VStr "test-miner") in
      let score := StringToNumber scoreRaw in
      if Num.isNaN score then
        {| printed :=
             [ (Stderr,
                "Invalid score. Please provide a numeric score (0..100).") ];
           exit_code := 2 |}
      else
        match RewardEngine.computeReward (VNum score) with
        | Throw e => failed [] e
        | Return reward =>
            let out :=
              [ (Stdout, "Computed reward:");
                prettyPrint (Exports.of_reward reward) ] in
            (* Example: award to an in-memory balances object *)
            let '(initialBalances, h) := RewardEngine.alloc ∅ ∅ in
            match RewardEngine.awardTokensToBalance h minerId
                    (RewardEngine.Ref initialBalances) (VNum score) with
            | (Throw e, _) => failed out e
            | (Return a, h) =>
                let awarded_line :=
                  String (ascii_of_nat 10)
                    ("Awarded " ++ pretty (RewardEngine.awarded a)
                     ++ " FLUQ token(s) to miner '"
                     ++ ToString minerId ++ "'.") in
                let meta_line :=
                  "Meta: "
                  ++ inspect (Exports.of_reward (RewardEngine.meta a)) in
                {| printed :=
                     (out ++
                      [ (Stdout, awarded_line);
                        (Stdout, "Updated balances (example):");
                        prettyPrint
                          (VObj (default ∅
                                   (h !! RewardEngine.updatedBalances a)));
                        (Stdout, meta_line) ])%list;
                   exit_code := 0 |}
            end
        end
  end.

End WithRuntime.
End RewardCLI.

(* ================================================================== *)
(** ** src/utils/hash.js: blake2b, keccak256 and hashAll *)

Module Digests.

(** The algorithms that may be missing from the installation, and the
    lower-casing of the language. *)
Class Algorithms := {
  (** crypto.createHash('blake2b512'); [None]: createHash throws *)
  createHash_blake2b512 : option (list byte -> list byte);
  (** keccak256 of the package js-sha3; [None]: the import failed *)
  jsKeccak : option (list byte -> string);
  (** crypto.createHash('keccak256'); [None]: createHash throws *)
  createHash_keccak256 : option (list byte -> list byte);
  (** String.prototype.toLowerCase *)
  String_toLowerCase : string -> string
}.

Section WithRuntime.
Context `{Runtime} `{Algorithms}.

(** blake2b(input): a result and the warnings of the console *)
Definition blake2b (input : jsval) : result string * list string :=
  match HashUtils.toBuffer input with
  | Throw e => (Throw e, [])
  | Return buf =>
      match createHash_blake2b512 with
      | Some digest => (Return (hex_of_bytes (digest buf)), [])
      | None =>
          (HashUtils.sha256 (VBuf buf),
           [ "Native blake2b512 not available. Falling back to sha256. "
             ++ "Install blakejs if you require true blake2b support." ])
      end
  end.

(** keccak256(input) *)
Definition keccak256 (input : jsval) : result string :=
  let! buf := HashUtils.toBuffer input in
  match jsKeccak with
  | Some keccak => Return (keccak buf)
  | None =>
      (* Try native crypto if available *)
      match createHash_keccak256 with
      | Some digest => Return (hex_of_bytes (digest buf))
      | None =>
          Throw (Error
            "Keccak256 unavailable. Install js-sha3: npm install js-sha3")
      end
  end.

(** hashAll(list, algorithm = 'sha256') *)
Definition hashAll : jsval -> jsval -> result string * list string :=
  fun list algorithm =>
  let algorithm := default_param algorithm (VStr "sha256") in
  match list with
  | VArr items =>
      match rmap HashUtils.toBuffer items with
      | Throw e => (Throw e, [])
      | Return parts =>
          let concat := Buffer_concat parts in
          match algorithm with
          | VStr name =>
              let lower := String_toLowerCase name in
              if String.eqb lower "sha256"
              then (HashUtils.sha256 (VBuf concat), [])
              else if String.eqb lower "blake2b"
              then blake2b (VBuf concat)
              else if String.eqb lower "keccak256"
              then (keccak256 (VBuf concat), [])
              else (Throw (Error ("Unsupported algorithm: " ++ name)), [])
          | VNull =>
              (Throw (TypeError
                 "Cannot read properties of null (reading 'toLowerCase')"),
               [])
          | _ =>
              (Throw (TypeError "algorithm.toLowerCase is not a function"),
               [])
          end
      end
  | _ => (Throw (TypeError "hashAll expects an array of inputs"), [])
  end.

End WithRuntime.

(** An installation without blake2b512 and keccak256, and the
    lower-casing of the letters A to Z. *)
Definition lower_ascii (c : ascii) : ascii :=
  let n := N_of_ascii c in
  if ((65 <=? n) && (n <=? 90))%N then ascii_of_N (n + 32) else c.

Fixpoint lower (s : string) : string :=
  match s with
  | EmptyString => EmptyString
  | String c s' => String (lower_ascii c) (lower s')
  end.

Definition plain : Algorithms := {|
  createHash_blake2b512 := None;
  jsKeccak := None;
  createHash_keccak256 := None;
  String_toLowerCase := lower
|}.

End Digests.

(* ================================================================== *)
(** ** The vocabulary of the properties *)

(** What computeReward returns on the number [n]: the clamped score
    and the tokens. *)
Definition reward_on (n : Z) : option (integral * Z) :=
  match RewardEngine.computeReward (VNum (Num.of_Z n)) with
  | Return r => Some (RewardEngine.score r, RewardEngine.tokens r)
  | Throw _ => None
  end.

(** The previous balance of a miner in a ledger: 0 when the miner has
    no entry. *)
Definition previous_balance (b : gmap string jsval) (id : string) : number :=
  match b !! id with
  | Some (VNum x) => x
  | _ => Num.zero
  end.

(** A score computeReward accepts: a number that is not NaN. *)
Definition valid_number (v : jsval) : bool :=
  match v with
  | VNum x => negb (Num.isNaN x)
  | _ => false
  end.

Definition nonempty_string (v : jsval) : bool :=
  match v with
  | VStr s => negb (String.eqb s "")
  | _ => false
  end.

(** [typeof v === 'object' && v !== null] *)
Definition is_object (v : jsval) : bool :=
  String.eqb (typeof v) "object" && negb (strict_equal v VNull).

(** The result of the scorer on no contribution. *)
Definition minimum_score (r : UniquenessScore.ScoreResult) : Prop :=
  UniquenessScore.score r = Int 0 /\
  UniquenessScore.category r = "Low" /\
  UniquenessScore.breakdown r !! "entropyNorm" = Some (VNum Num.zero) /\
  UniquenessScore.breakdown r !! "nonRepeatNorm" = Some (VNum Num.zero) /\
  UniquenessScore.breakdown r !! "amountNorm" = Some (VNum Num.zero) /\
  UniquenessScore.breakdown r !! "variationNorm" = Some (VNum Num.zero).

(** The key under which the repetition loop counts an item. *)
Definition key_of `{Runtime} (item : jsval) : string := ToString item.

(** The two results of the detector the properties name. *)
Definition repeated_values : CheatDetector.CheatResult :=
  {| CheatDetector.cheated := true;
     CheatDetector.reason :=
       Some "Too many repeated values (low randomness)" |}.

Definition entropy_too_low `{Runtime} : CheatDetector.CheatResult :=
  {| CheatDetector.cheated := true;
     CheatDetector.reason :=
       Some ("Entropy too low (" ++ Number_toFixed Num.zero 2 ++ ")") |}.

(** The bytes mixRandomness hashes, for the buffers of the optional
    fields and a shuffle of the contributions. *)
Definition preImage (salt round prev : list byte)
    (shuffled : list (list byte)) : list byte :=
  (salt ++ round ++ prev ++ concat shuffled)%list.

(** The buffer of a string: [Mixer.toBuffer] on it. *)
Definition buffer_of_string (s : string) : list byte :=
  if is_hex s && Nat.even (String.length s) then bytes_of_hex s else utf8 s.

(** The console of a round up to the digest of the collected pieces. *)
Definition opening_lines (inp : Index.Inputs) : list Logger.line :=
  let prevRoundHash :=
    match Index.PREV_ROUND_HASH inp with
    | Some e =>
        if String.eqb e "" then string_of_list_ascii (repeat "0"%char 64)
        else e
    | None => string_of_list_ascii (repeat "0"%char 64)
    end in
  [ (Logger.Info, "--- FLUQ Alpha 1.0: Starting round ---");
    (Logger.Info, "Round ID: " ++ "round-" ++ pretty (Index.now inp));
    (Logger.Info, "Prev round hash: " ++ prevRoundHash);
    (Logger.Info,
     "Collecting entropy from collectors (mouse, keyboard, cpu, crypto)...");
    (Logger.Info, "Collected pieces:") ].

(** A text of ASCII characters. *)
Definition is_ascii (s : string) : bool :=
  forallb (fun c => (N_of_ascii c <? 128)%N) (list_ascii_of_string s).

(** The number a list of bytes denotes, least significant byte first. *)
Fixpoint le_value (l : list byte) : N :=
  match l with
  | [] => 0%N
  | b :: l' => (Byte.to_N b + 256 * le_value l')%N
  end.

(** The order of the values two numbers hold: [a * 2^e1 <= b * 2^e2],
    compared at the smaller exponent; NaN is not ordered. *)
Definition dyadic (x : number) : option (Z * Z) :=
  match x with
  | S754_zero _ => Some (0, 0)
  | S754_finite s m e => Some (cond_Zopp s (Zpos m), e)
  | _ => None
  end.

Definition value_le (x y : number) : Prop :=
  match x, y with
  | S754_nan, _ | _, S754_nan => False
  | S754_infinity true, _ | _, S754_infinity false => True
  | S754_infinity false, _ | _, S754_infinity true => False
  | _, _ =>
      match dyadic x, dyadic y with
      | Some (a, e1), Some (b, e2) =>
          a * 2 ^ (e1 - Z.min e1 e2) <= b * 2 ^ (e2 - Z.min e1 e2)
      | _, _ => False
      end
  end.

(* ================================================================== *)
(** * Properties *)

Section RewardProperties.
Import RewardEngine.

Lemma clamp_integral (a : integral) :
  a <> INaN ->
  exists s : Z, 0 <= s <= 100 /\
    Integral.max (Int 0) (Integral.min (Int 100) a) = Int s.
Proof.
  intros Ha. destruct a as [| [] | z]; try congruence; simpl.
  - exists 0. split; [lia | reflexivity].
  - exists 100. split; [lia | reflexivity].
  - exists (Z.max 0 (Z.min 100 z)). split; [lia | reflexivity].
Qed.

Lemma round_not_NaN (x : number) :
  Num.isNaN x = false -> Integral.round x <> INaN.
Proof.
  destruct x as [s | s | | s m e]; simpl; try congruence.
  destruct (0 <=? e); congruence.
Qed.

Lemma computeReward_of_clamped (x : number) (s : Z) :
  Num.isNaN x = false ->
  Integral.max (Int 0) (Integral.min (Int 100) (Integral.round x)) = Int s ->
  computeReward (VNum x) =
    Return
      (if 80 <? s then
         {| score := Int s; tokens := 5; category := "High Entropy";
            reason := "Score above 80: highest reward bracket" |}
       else if 50 <=? s then
         {| score := Int s; tokens := 3; category := "Medium Entropy";
            reason := "Score between 50 and 80: medium reward bracket" |}
       else
         {| score := Int s; tokens := 1; category := "Low Entropy";
            reason := "Score below 50: baseline reward" |}).
Proof.
  intros Hx Hs. unfold computeReward. rewrite Hx, Hs.
  unfold Integral.gt, Integral.ge, Integral.le, Integral.lt.
  destruct (80 <? s) eqn:H80; [reflexivity |].
  destruct (50 <=? s) eqn:H50.
  - assert ((s <? 50) = false) as -> by lia. reflexivity.
  - assert ((s <? 50) = true) as -> by lia. reflexivity.
Qed.

(** C3. For every number that is not NaN, computeReward rounds it and
    clamps it to an integer s of [0,100], returns s as the score, and
    awards 5 tokens when s > 80, 3 tokens when 50 <= s <= 80 and 1 token
    when s < 50.  In particular 81 gives 5 tokens, 80 gives 3, 49 gives
    1, 150 is clamped to 100 and gives 5, -10 is clamped to 0 and gives
    1. *)
Theorem computeReward_clamps_then_brackets :
  (forall x : number,
      Num.isNaN x = false ->
      exists (s : Z) (r : Reward),
        0 <= s <= 100 /\
        Integral.max (Int 0) (Integral.min (Int 100) (Integral.round x))
          = Int s /\
        computeReward (VNum x) = Return r /\
        score r = Int s /\
        (80 < s -> tokens r = 5) /\
        (50 <= s <= 80 -> tokens r = 3) /\
        (s < 50 -> tokens r = 1)) /\
  reward_on 81 = Some (Int 81, 5) /\
  reward_on 80 = Some (Int 80, 3) /\
  reward_on 49 = Some (Int 49, 1) /\
  reward_on 150 = Some (Int 100, 5) /\
  reward_on (-10) = Some (Int 0, 1).
Proof.
  split; [| repeat split; vm_compute; reflexivity].
  intros x Hx.
  destruct (clamp_integral (Integral.round x) (round_not_NaN x Hx))
    as (s & Hs & Hclamp).
  exists s. eexists. split; [exact Hs |]. split; [exact Hclamp |].
  split; [apply (computeReward_of_clamped x s Hx Hclamp) |].
  destruct (80 <? s) eqn:H80; [| destruct (50 <=? s) eqn:H50];
    simpl; repeat split; intros; try reflexivity; lia.
Qed.

(** The theorem at the score 72.5: it rounds to 73, in the middle
    bracket. *)
Lemma computeReward_clamps_then_brackets_witness :
  Num.isNaN (Num.div (Num.of_Z 145) (Num.of_Z 2)) = false /\
  exists (s : Z) (r : Reward),
    0 <= s <= 100 /\
    Integral.max (Int 0)
      (Integral.min (Int 100)
         (Integral.round (Num.div (Num.of_Z 145) (Num.of_Z 2)))) = Int s /\
    computeReward (VNum (Num.div (Num.of_Z 145) (Num.of_Z 2))) = Return r /\
    score r = Int s /\
    (80 < s -> tokens r = 5) /\
    (50 <= s <= 80 -> tokens r = 3) /\
    (s < 50 -> tokens r = 1).
Proof.
  split; [reflexivity |].
  apply (proj1 computeReward_clamps_then_brackets). reflexivity.
Defined.
End RewardProperties.

Section LedgerProperties.
Import RewardEngine.
Context `{Runtime}.

Lemma computeReward_tokens (v : jsval) (r : Reward) :
  computeReward v = Return r ->
  tokens r = 5 \/ tokens r = 3 \/ tokens r = 1.
Proof.
  unfold computeReward. destruct v; try discriminate.
  destruct (Num.isNaN x); [discriminate |].
  repeat match goal with |- context [if ?c then _ else _] => destruct c end;
    intros [= <-]; simpl; auto.
Qed.

(** [(x || 0) + t] is [x + t] for a number x that is not NaN and a
    token count t. *)
Lemma add_or_zero (x : number) (t : Z) :
  Num.isNaN x = false ->
  t = 5 \/ t = 3 \/ t = 1 ->
  Num.add (ToNumber (or_else (VNum x) (VNum Num.zero))) (Num.of_Z t)
  = Num.add x (Num.of_Z t).
Proof.
  intros Hx Ht. unfold or_else, truthy. rewrite Hx. simpl.
  destruct x as [s | s | | s m e]; simpl; try reflexivity; try discriminate.
  destruct s; destruct Ht as [-> | [-> | ->]]; reflexivity.
Qed.

Lemma alloc_fresh (h : heap) (o : gmap string jsval) :
  h !! (alloc h o).1 = None.
Proof.
  unfold alloc. simpl. apply not_elem_of_dom. apply is_fresh.
Qed.

(** For a ledger object of the caller, a non-empty miner id that is no
    property name of Object.prototype and a valid score,
    awardTokensToBalance returns a new object: the caller's ledger (and
    every other object of the caller) is unchanged; in the new ledger the
    miner holds the previous balance (0 when absent) plus the awarded
    tokens, and every other entry is the one of the caller's ledger. *)
Lemma awardTokensToBalance_new_snapshot
    (h : heap) (l : loc) (b : gmap string jsval) (id : string)
    (x : number) :
  h !! l = Some b ->
  id <> "" ->
  inherited id = VUndefined ->
  Num.isNaN x = false ->
  (b !! id = None \/
   exists p, b !! id = Some (VNum p) /\ Num.isNaN p = false) ->
  exists (r : Reward) (l' : loc) (h' : heap) (b' : gmap string jsval),
    computeReward (VNum x) = Return r /\
    awardTokensToBalance h (VStr id) (Ref l) (VNum x)
      = (Return {| updatedBalances := l'; awarded := tokens r; meta := r |},
         h') /\
    l' <> l /\
    h' !! l = Some b /\
    (forall l0, l0 <> l' -> h' !! l0 = h !! l0) /\
    h' !! l' = Some b' /\
    b' !! id = Some (VNum (Num.add (previous_balance b id)
                                   (Num.of_Z (tokens r)))) /\
    (forall k, k <> id -> k <> "__proto__" -> b' !! k = b !! k).
Proof.
  intros Hl Hid Hown Hx Hprev.
  assert (String.eqb id "__proto__" = false) as Hproto.
  { destruct (String.eqb id "__proto__") eqn:E; [| reflexivity].
    apply String.eqb_eq in E. subst id. discriminate Hown. }
  destruct (clamp_integral (Integral.round x) (round_not_NaN x Hx))
    as (s & _ & Hclamp).
  pose proof (computeReward_of_clamped x s Hx Hclamp) as Hr.
  match type of Hr with _ = Return ?r0 => set (r := r0) in * end.
  pose proof (computeReward_tokens _ _ Hr) as Htok.
  pose proof (alloc_fresh h ∅) as Hfresh.
  change (alloc h ∅).1 with (fresh (dom h)) in Hfresh.
  set (l' := fresh (dom h)) in *.
  assert (l' <> l) as Hne by (intros ->; congruence).
  set (v := VNum (Num.add (previous_balance b id) (Num.of_Z (tokens r)))).
  assert (id <> "__proto__") as Hnp by (by apply String.eqb_neq).
  exists r, l',
    (alter (fun o => <[id := v]> o) l'
       (alter (fun o => delete "__proto__" b ∪ o) l' (<[l' := ∅]> h))),
    (<[id := v]> (delete "__proto__" b)).
  split; [exact Hr |].
  split.
  { unfold awardTokensToBalance.
    assert (String.eqb id "" = false) as -> by (by apply String.eqb_neq).
    rewrite Hr. cbn [negb]. unfold alloc. fold l'. cbn [fst snd].
    unfold Object_assign, props_of. fold l'.
    rewrite (lookup_insert_ne h l' l ∅ Hne), Hl. cbn [default].
    unfold store, load. rewrite Hproto.
    rewrite lookup_alter_eq, lookup_insert_eq. cbn.
    rewrite (right_id_L ∅ (∪) (delete "__proto__" b)).
    rewrite lookup_delete_ne by congruence.
    f_equal. f_equal. f_equal. subst v. f_equal.
    unfold previous_balance.
    destruct Hprev as [-> | (p & -> & Hp)]; cbn.
    - rewrite Hown. reflexivity.
    - by apply add_or_zero. }
  split; [exact Hne |].
  split.
  { rewrite !lookup_alter_ne by done. by rewrite lookup_insert_ne. }
  split.
  { intros l0 Hl0. rewrite !lookup_alter_ne by done.
    by rewrite lookup_insert_ne. }
  split.
  { rewrite !lookup_alter_eq, lookup_insert_eq. cbn.
    by rewrite (right_id_L ∅ (∪) (delete "__proto__" b)). }
  split; [apply lookup_insert_eq |].
  intros k Hk Hkp. rewrite lookup_insert_ne by congruence.
  by apply lookup_delete_ne.
Qed.
End LedgerProperties.

(** The ledger [{alice: 7}] at address 1, the miner alice and the score
    90: the new ledger holds 7 + 5 for alice, the old one is untouched. *)
Example award_to_alice :
  let h : gmap positive (gmap string jsval) :=
    {[ 1%positive := {[ "alice" := VNum (Num.of_Z 7) ]} ]} in
  exists (r : RewardEngine.Reward) (l' : positive)
         (h' : gmap positive (gmap string jsval)) (b' : gmap string jsval),
    RewardEngine.awardTokensToBalance (H := Reference.runtime) h (VStr "alice")
      (RewardEngine.Ref 1%positive) (VNum (Num.of_Z 90))
    = (Return {| RewardEngine.updatedBalances := l';
                 RewardEngine.awarded := RewardEngine.tokens r;
                 RewardEngine.meta := r |}, h') /\
    h' !! 1%positive = h !! 1%positive /\
    h' !! l' = Some b' /\
    b' !! "alice" = Some (VNum (Num.add (Num.of_Z 7) (Num.of_Z 5))).
Proof.
  intros h.
  destruct (awardTokensToBalance_new_snapshot (H := Reference.runtime)
              h 1%positive {[ "alice" := VNum (Num.of_Z 7) ]} "alice"
              (Num.of_Z 90))
    as (r & l' & h' & b' & Hr & Hcall & _ & Hl & _ & Hl' & Hb & _).
  - reflexivity.
  - discriminate.
  - reflexivity.
  - reflexivity.
  - right. exists (Num.of_Z 7). split; reflexivity.
  - exists r, l', h', b'. split; [exact Hcall |]. split; [exact Hl |].
    split; [exact Hl' |].
    injection Hr as <-. exact Hb.
Qed.

(** C9 fails on the code for a miner whose id is a property name of
    Object.prototype.  On the empty ledger, for the miner "constructor"
    and the score 90, the previous balance is read as the inherited
    function, not as absent: its number is NaN, and the new ledger holds
    NaN for the miner, where the previous balance 0 plus the 5 awarded
    tokens was to be entered.  The caller's ledger is left unchanged. *)
Theorem award_on_inherited_name :
  let h : gmap positive (gmap string jsval) := {[ 1%positive := ∅ ]} in
  exists a h',
    RewardEngine.awardTokensToBalance (H := Reference.runtime) h
      (VStr "constructor") (RewardEngine.Ref 1%positive) (VNum (Num.of_Z 90))
    = (Return a, h') /\
    RewardEngine.awarded a = 5 /\
    h' !! 1%positive = Some ∅ /\
    h' !! RewardEngine.updatedBalances a
    = Some {[ "constructor" := VNum Num.NaN ]} /\
    VNum Num.NaN <> VNum (Num.add Num.zero (Num.of_Z 5)).
Proof.
  intros h. eexists. eexists.
  split; [reflexivity |].
  split; [reflexivity |].
  split; [vm_compute; reflexivity |].
  split; [vm_compute; reflexivity |].
  vm_compute. discriminate.
Qed.

(* ------------------------------------------------------------------ *)

Section InputErrors.
Import RewardEngine.
Context `{Runtime}.

Lemma computeReward_rejects (v : jsval) :
  valid_number v = false ->
  computeReward v
  = Throw (TypeError "computeReward: score must be a valid number").
Proof.
  destruct v; simpl; try reflexivity.
  destruct (Num.isNaN x); [reflexivity | discriminate].
Qed.

Lemma award_rejects_minerId (h : heap) (minerId : jsval)
    (balances : argument) (score : jsval) :
  nonempty_string minerId = false ->
  (awardTokensToBalance h minerId balances score).1
  = Throw (TypeError
      "awardTokensToBalance: minerId must be a non-empty string").
Proof.
  intros Hm. unfold awardTokensToBalance.
  match goal with
  | |- context [let '(_, _) := ?p in _] => destruct p as [b' h']
  end.
  destruct minerId; try reflexivity. simpl in Hm.
  destruct (String.eqb s ""); [reflexivity | discriminate].
Qed.

Lemma award_rejects_balances (h : heap) (minerId v score : jsval) :
  v <> VUndefined ->
  is_object v = false ->
  exists msg,
    (awardTokensToBalance h minerId (Val v) score).1 = Throw (TypeError msg).
Proof.
  intros Hv Hobj. unfold awardTokensToBalance.
  destruct minerId; try (destruct v; eexists; reflexivity).
  destruct v; try congruence; try discriminate Hobj;
    cbn -[String.eqb]; destruct (String.eqb s ""); eexists; reflexivity.
Qed.

Lemma mixRandomness_rejects (inputs opts : jsval) (t : tape) :
  Array_isArray inputs = false ->
  Mixer.mixRandomness inputs opts t
  = (Throw (Error "inputs must be an array of Buffers or strings"), t).
Proof.
  destruct inputs; simpl; try discriminate; reflexivity.
Qed.

(** C8, amended. Input errors are rejected at the function boundary:
    computeReward throws a TypeError for every score that is not a number
    or is NaN; awardTokensToBalance throws a TypeError for every minerId
    that is not a non-empty string, and for every balances value that is
    neither an object nor undefined (an undefined balances takes the
    default, an empty ledger); mixRandomness, an async function, rejects
    with an Error for every inputs value that is not an array, before it
    reads the entropy tape. *)
Theorem input_errors_rejected :
  (forall v, valid_number v = false ->
     computeReward v
     = Throw (TypeError "computeReward: score must be a valid number")) /\
  (forall h minerId balances score,
     nonempty_string minerId = false ->
     (awardTokensToBalance h minerId balances score).1
     = Throw (TypeError
         "awardTokensToBalance: minerId must be a non-empty string")) /\
  (forall h minerId v score,
     v <> VUndefined -> is_object v = false ->
     exists msg,
       (awardTokensToBalance h minerId (Val v) score).1
       = Throw (TypeError msg)) /\
  (forall inputs opts t,
     Array_isArray inputs = false ->
     Mixer.mixRandomness inputs opts t
     = (Throw (Error "inputs must be an array of Buffers or strings"), t)).
Proof.
  split; [exact computeReward_rejects |].
  split; [exact award_rejects_minerId |].
  split; [exact award_rejects_balances |].
  exact mixRandomness_rejects.
Qed.
End InputErrors.

(** The theorem at a string score, an empty miner id, a numeric balances
    value and a string in place of the inputs array. *)
Lemma input_errors_rejected_witness :
  throws (RewardEngine.computeReward (VStr "85")) = true /\
  throws (RewardEngine.awardTokensToBalance (H := Reference.runtime)
            ∅ (VStr "") (RewardEngine.Val (VObj ∅)) (VNum (Num.of_Z 90))).1
  = true /\
  throws (RewardEngine.awardTokensToBalance (H := Reference.runtime)
            ∅ (VStr "m") (RewardEngine.Val (VNum (Num.of_Z 3)))
            (VNum (Num.of_Z 90))).1
  = true /\
  throws (Mixer.mixRandomness (H := Reference.runtime)
            (VStr "abcd") VUndefined [1; 2; 3]%nat).1 = true.
Proof.
  destruct (input_errors_rejected (H := Reference.runtime))
    as (H1 & H2 & H3 & H4).
  split; [rewrite H1; reflexivity |].
  split; [rewrite H2; reflexivity |].
  split.
  - destruct (H3 ∅ (VStr "m") (VNum (Num.of_Z 3)) (VNum (Num.of_Z 90)))
      as [msg ->]; [discriminate | reflexivity | reflexivity].
  - rewrite H4; reflexivity.
Defined.

(** C8 as stated fails at the balances value [undefined], which is not
    an object: the call returns, with the award entered in a new
    ledger. *)
Lemma undefined_balances_not_rejected :
  is_object VUndefined = false /\
  exists a h,
    RewardEngine.awardTokensToBalance (H := Reference.runtime)
      ∅ (VStr "m") (RewardEngine.Val VUndefined) (VNum (Num.of_Z 90))
    = (Return a, h) /\
    RewardEngine.awarded a = 5 /\
    h !! RewardEngine.updatedBalances a
    = Some {[ "m" := VNum (Num.of_Z 5) ]}.
Proof.
  split; [reflexivity |].
  eexists. eexists. split; [reflexivity |].
  split; [reflexivity |].
  vm_compute. reflexivity.
Qed.

(* ------------------------------------------------------------------ *)

Section ScorerProperties.
Import UniquenessScore.
Context `{Runtime}.

Lemma no_contributions (allRandomness options : jsval) :
  normalize_inputs allRandomness = [] ->
  exists r,
    computeUniquenessScore allRandomness options = Return r /\
    minimum_score r.
Proof.
  intros Hempty. unfold computeUniquenessScore. rewrite Hempty. simpl.
  eexists. split; [reflexivity |].
  unfold minimum_score. simpl. repeat split; reflexivity.
Qed.

(** C7. When the contributions of a call are empty, computeUniquenessScore
    returns, whatever the options: the score is 0, the category "Low" and
    the four sub-scores entropyNorm, nonRepeatNorm, amountNorm and
    variationNorm are 0.  The empty array, an array of null and undefined
    values, null and undefined have no contributions. *)
Theorem computeUniquenessScore_empty :
  (forall allRandomness options,
     normalize_inputs allRandomness = [] ->
     exists r,
       computeUniquenessScore allRandomness options = Return r /\
       minimum_score r) /\
  normalize_inputs (VArr []) = [] /\
  normalize_inputs VNull = [] /\
  normalize_inputs VUndefined = [] /\
  (forall items,
     forallb is_nullish items = true -> normalize_inputs (VArr items) = []).
Proof.
  split; [exact no_contributions |].
  repeat split; try reflexivity.
  intros items Hall. unfold normalize_inputs.
  induction items as [| x items IH]; [reflexivity |].
  simpl in Hall. apply andb_prop in Hall as [Hx Hi].
  rewrite filter_cons. rewrite decide_False by congruence. auto.
Qed.
End ScorerProperties.

(** The theorem at an array of null and undefined, with the options
    null. *)
Lemma computeUniquenessScore_empty_witness :
  UniquenessScore.normalize_inputs (VArr [VNull; VUndefined]) = [] /\
  exists r,
    UniquenessScore.computeUniquenessScore (H := Reference.runtime)
      (VArr [VNull; VUndefined]) VNull = Return r /\
    minimum_score r.
Proof.
  split; [reflexivity |].
  apply (proj1 (computeUniquenessScore_empty (H := Reference.runtime))).
  reflexivity.
Defined.

(* ------------------------------------------------------------------ *)

Section DetectorProperties.
Import CheatDetector.
Context `{Runtime}.

Lemma count_of_bump_eq (o : counters) (k : string) :
  count_of (bump o k) k = S (count_of o k).
Proof.
  induction o as [| [k' n] o IH]; simpl.
  - by rewrite String.eqb_refl.
  - destruct (String.eqb k' k) eqn:E; simpl; rewrite E;
      [reflexivity | exact IH].
Qed.

Lemma count_of_bump_ne (o : counters) (k k' : string) :
  k <> k' -> count_of (bump o k') k = count_of o k.
Proof.
  intros Hne. induction o as [| [k0 n] o IH]; simpl.
  - assert (String.eqb k' k = false) as ->; [| reflexivity].
    apply String.eqb_neq. congruence.
  - destruct (String.eqb k0 k') eqn:E; simpl.
    + apply String.eqb_eq in E as ->.
      assert (String.eqb k' k = false) as ->; [| reflexivity].
      apply String.eqb_neq. congruence.
    + destruct (String.eqb k0 k); [reflexivity | exact IH].
Qed.

(** The loop returns as soon as a key is held by more than half of the
    length: when no counter exceeds the half yet and the items to come
    take one above it, the check fires. *)
Lemma repetition_loop_fires (len : nat) (items : list jsval) :
  forall (reps : counters) (k : string),
    (forall k', (2 * count_of reps k' <= len)%nat) ->
    (len < 2 * (count_of reps k
                + count_occ string_dec (map key_of items) k))%nat ->
    repetition_loop len reps items = true.
Proof.
  induction items as [| x items IH]; intros reps k Hinv Hk.
  - simpl in Hk. specialize (Hinv k). lia.
  - cbn [repetition_loop]. fold (key_of x).
    destruct (len <? 2 * count_of (bump reps (key_of x)) (key_of x))%nat
      eqn:Hfire; [reflexivity |].
    apply Nat.ltb_ge in Hfire.
    apply (IH (bump reps (key_of x)) k).
    + intros k'. destruct (string_dec k' (key_of x)) as [-> | Hne].
      * exact Hfire.
      * rewrite count_of_bump_ne by exact Hne. apply Hinv.
    + cbn [map] in Hk. destruct (string_dec (key_of x) k) as [E | Hne].
      * rewrite count_occ_cons_eq in Hk by exact E. subst k.
        rewrite count_of_bump_eq. lia.
      * rewrite count_occ_cons_neq in Hk by exact Hne.
        rewrite count_of_bump_ne by congruence. exact Hk.
Qed.

Lemma byte_keys_count (bytes : list byte) (b : byte) :
  (count_occ Byte.byte_eq_dec bytes b
   <= count_occ string_dec
        (map key_of (map (fun x => VNum (byte_num x)) bytes))
        (key_of (VNum (byte_num b))))%nat.
Proof.
  induction bytes as [| x bytes IH]; [reflexivity |].
  cbn [map]. destruct (Byte.byte_eq_dec x b) as [-> | Hne].
  - rewrite !count_occ_cons_eq by reflexivity. lia.
  - rewrite (count_occ_cons_neq _ _ Hne).
    destruct (string_dec (key_of (VNum (byte_num x)))
                         (key_of (VNum (byte_num b)))) as [E | E].
    + rewrite (count_occ_cons_eq _ _ E). lia.
    + rewrite (count_occ_cons_neq _ _ E). exact IH.
Qed.

Lemma repetition_first (bytes : list byte) (previous : option (list byte))
    (b : byte) :
  (length bytes < 2 * count_occ Byte.byte_eq_dec bytes b)%nat ->
  detectCheating (VBuf bytes) previous = Return repeated_values.
Proof.
  intros Hb. unfold detectCheating. cbn [iterate rbind length_of].
  rewrite (repetition_loop_fires (length bytes) _ []
             (key_of (VNum (byte_num b)))); [reflexivity | |].
  - intros k'. cbn [count_of]. lia.
  - pose proof (byte_keys_count bytes b). cbn [count_of]. lia.
Qed.

(** C6. When one byte value fills more than half of a buffer,
    detectCheating returns cheated = true with the reason "Too many
    repeated values (low randomness)", which contains "repeated".  The
    check comes first: the result is the same without a previous buffer
    and with any previous buffer (the buffer itself too, which is 100%
    similar), and whatever the entropy.  A buffer of 1000 bytes in which
    0x41 occurs 600 times is flagged so. *)
Theorem detectCheating_repetition_first :
  (forall (bytes : list byte) (previous : option (list byte)) (b : byte),
     (length bytes < 2 * count_occ Byte.byte_eq_dec bytes b)%nat ->
     detectCheating (VBuf bytes) previous = Return repeated_values) /\
  (forall (bytes : list byte) (b : byte),
     (length bytes < 2 * count_occ Byte.byte_eq_dec bytes b)%nat ->
     detectCheating (VBuf bytes) (Some bytes) = Return repeated_values) /\
  (forall (bytes : list byte) (previous : option (list byte)),
     length bytes = 1000%nat ->
     count_occ Byte.byte_eq_dec bytes x41 = 600%nat ->
     detectCheating (VBuf bytes) previous = Return repeated_values) /\
  cheated repeated_values = true /\
  (exists text, reason repeated_values = Some text /\
                includes text "repeated" = true).
Proof.
  split; [exact repetition_first |].
  split; [intros; by apply repetition_first with b |].
  split.
  - intros bytes previous Hlen Hcount.
    apply repetition_first with x41. lia.
  - split; [reflexivity |]. eexists. split; [reflexivity |].
    vm_compute. reflexivity.
Qed.

(** C10. On the empty buffer detectCheating returns, with or without a
    previous buffer: no repetition is found, the similarity with a
    previous buffer is 0/0 = NaN and not above 85, the entropy is 0, below
    4.0, and the result is cheated = true with a reason that starts with
    "Entropy too low". *)
Theorem detectCheating_empty_buffer :
  (forall previous : option (list byte),
     detectCheating (VBuf []) previous = Return entropy_too_low) /\
  calculateEntropy (VBuf []) = Return Num.zero /\
  Num.lt Num.zero (Num.of_Z 4) = true /\
  (forall previous : list byte,
     exists s, bufferSimilarity (VBuf []) previous = Return s /\
               Num.isNaN s = true /\ Num.gt s (Num.of_Z 85) = false) /\
  cheated entropy_too_low = true /\
  (exists text, reason entropy_too_low = Some text /\
                includes text "Entropy too low" = true).
Proof.
  split.
  { intros [previous |]; reflexivity. }
  split; [reflexivity |].
  split; [reflexivity |].
  split.
  { intros previous. eexists. split; [reflexivity |].
    split; reflexivity. }
  split; [reflexivity |].
  eexists. split; [reflexivity |]. reflexivity.
Qed.
End DetectorProperties.

(** The theorem on a buffer of four bytes, three of them 0x41, against
    itself as the previous buffer. *)
Lemma detectCheating_repetition_first_witness :
  (length [x41; x41; x00; x41]
   < 2 * count_occ Byte.byte_eq_dec [x41; x41; x00; x41] x41)%nat /\
  CheatDetector.detectCheating (H := Reference.runtime)
    (VBuf [x41; x41; x00; x41]) (Some [x41; x41; x00; x41])
  = Return repeated_values.
Proof.
  assert (length [x41; x41; x00; x41]
          < 2 * count_occ Byte.byte_eq_dec [x41; x41; x00; x41] x41)%nat
    as Hhalf by (vm_compute; lia).
  split; [exact Hhalf |].
  exact (proj1 (detectCheating_repetition_first (H := Reference.runtime))
           [x41; x41; x00; x41] (Some [x41; x41; x00; x41]) x41 Hhalf).
Defined.

(* ------------------------------------------------------------------ *)

Section MixerProperties.
Import Mixer.

Lemma swap_permutation {A} (arr : list A) (i j : nat) :
  swap arr i j ≡ₚ arr.
Proof.
  unfold swap.
  destruct (arr !! i) as [x |] eqn:Hi; [| reflexivity].
  destruct (arr !! j) as [y |] eqn:Hj; [| reflexivity].
  by apply Permutation_insert_swap.
Qed.

Lemma shuffle_from_permutation {A} (i : nat) :
  forall (arr : list A) (t : tape), (shuffle_from i arr t).1 ≡ₚ arr.
Proof.
  induction i as [| i IH]; intros arr t; [reflexivity |].
  cbn [shuffle_from]. destruct (randomInt t 0 (S i + 1)) as [j t'].
  rewrite IH. apply swap_permutation.
Qed.

Lemma secureShuffle_permutation {A} (buffers : list A) (t : tape) :
  (secureShuffle buffers t).1 ≡ₚ buffers.
Proof. apply shuffle_from_permutation. Qed.

Lemma concat_permutation {A} (l1 l2 : list (list A)) :
  l1 ≡ₚ l2 -> concat l1 ≡ₚ concat l2.
Proof.
  induction 1 as [| x l l' _ IH | x y l | l l' l'' _ IH1 _ IH2]; simpl.
  - reflexivity.
  - by rewrite IH.
  - rewrite !app_assoc. f_equiv. apply Permutation_app_comm.
  - by rewrite IH1.
Qed.

Lemma push_nonempty_concat (parts : list (list byte)) (b : list byte) :
  concat (push_nonempty parts b) = (concat parts ++ b)%list.
Proof.
  unfold push_nonempty. destruct b as [| x b]; simpl.
  - by rewrite app_nil_r.
  - rewrite concat_app. simpl. by rewrite app_nil_r.
Qed.

Context `{Runtime}.

(** What mixRandomness returns once its arguments are converted. *)
Lemma mixRandomness_returns (items : list jsval) (opts : jsval) (t : tape)
    (buffers : list (list byte)) (salt round prev : list byte) :
  rmap toBuffer items = Return buffers ->
  optional_fields (default_param opts (VObj ∅))
    = Return (salt, round, prev) ->
  let shuffled := (secureShuffle buffers t).1 in
  let pre := preImage salt round prev shuffled in
  mixRandomness (VArr items) opts t
  = (Return {| finalHash := sha256Hex pre;
               shuffledHex := map hex_of_bytes shuffled;
               concatenatedHex := hex_of_bytes pre;
               preImageHex := hex_of_bytes pre |},
     (secureShuffle buffers t).2).
Proof.
  intros Hbuf Hopt shuffled pre. unfold mixRandomness.
  rewrite Hbuf, Hopt.
  destruct (secureShuffle buffers t) as [sh t'] eqn:Hsh.
  subst shuffled pre. cbn [fst snd].
  assert (Buffer_concat
            (push_nonempty (push_nonempty (push_nonempty [] salt) round) prev
             ++ sh) = preImage salt round prev sh) as ->; [| reflexivity].
  unfold Buffer_concat, preImage.
  rewrite concat_app, !push_nonempty_concat. simpl.
  by rewrite <- !app_assoc.
Qed.

(** C5. Once the inputs and the options are converted to buffers,
    mixRandomness returns; the shuffled list is a permutation of the
    normalized input buffers, so that the bytes of its concatenation, the
    tail of the pre-image, are the bytes of the inputs, none added,
    dropped or altered; shuffledHex lists the hex encodings of the
    shuffled buffers, in their order. *)
Theorem mixRandomness_shuffle_is_permutation
    (items : list jsval) (opts : jsval) (t : tape)
    (buffers : list (list byte)) (salt round prev : list byte) :
  rmap toBuffer items = Return buffers ->
  optional_fields (default_param opts (VObj ∅))
    = Return (salt, round, prev) ->
  exists (r : MixResult) (t' : tape) (shuffled : list (list byte)),
    mixRandomness (VArr items) opts t = (Return r, t') /\
    shuffled ≡ₚ buffers /\
    concat shuffled ≡ₚ concat buffers /\
    shuffledHex r = map hex_of_bytes shuffled /\
    preImageHex r
    = hex_of_bytes ((salt ++ round ++ prev) ++ concat shuffled)%list.
Proof.
  intros Hbuf Hopt.
  eexists. exists (secureShuffle buffers t).2, (secureShuffle buffers t).1.
  split; [apply (mixRandomness_returns items opts t buffers salt round prev
                   Hbuf Hopt) |].
  pose proof (secureShuffle_permutation buffers t) as Hperm.
  split; [exact Hperm |].
  split; [by apply concat_permutation |].
  split; [reflexivity |].
  cbn [preImageHex]. unfold preImage. by rewrite <- !app_assoc.
Qed.
End MixerProperties.

(** The theorem on a buffer, a hex string and a text, without options. *)
Lemma mixRandomness_shuffle_is_permutation_witness :
  exists (r : Mixer.MixResult) (t' : tape) (shuffled : list (list byte)),
    Mixer.mixRandomness (H := Reference.runtime)
      (VArr [VBuf [x01]; VStr "0a0b"; VStr "hi"]) VUndefined [5; 7]%nat
    = (Return r, t') /\
    shuffled ≡ₚ [[x01]; [x0a; x0b]; [x68; x69]] /\
    concat shuffled ≡ₚ concat [[x01]; [x0a; x0b]; [x68; x69]] /\
    Mixer.shuffledHex r = map hex_of_bytes shuffled /\
    Mixer.preImageHex r
    = hex_of_bytes (([] ++ [] ++ []) ++ concat shuffled)%list.
Proof.
  apply (mixRandomness_shuffle_is_permutation (H := Reference.runtime)
           [VBuf [x01]; VStr "0a0b"; VStr "hi"] VUndefined [5; 7]%nat
           [[x01]; [x0a; x0b]; [x68; x69]] [] [] []); reflexivity.
Defined.

(* ------------------------------------------------------------------ *)

Section PreImageProperties.
Import Mixer.
Context `{Runtime}.

Lemma toBuffer_strings (l : list string) :
  rmap toBuffer (map VStr l) = Return (map buffer_of_string l).
Proof.
  induction l as [| s l IH]; [reflexivity |].
  cbn [map rmap]. rewrite IH. unfold toBuffer, buffer_of_string.
  destruct (is_hex s && Nat.even (String.length s)); reflexivity.
Qed.

Lemma rbind_Return {A B} (r : result A) (k : A -> result B) (b : B) :
  rbind r k = Return b -> exists a, r = Return a /\ k a = Return b.
Proof. destruct r; simpl; [eauto | discriminate]. Qed.

(** The buffer of an optional field is empty when the field is absent. *)
Lemma optional_fields_absent (o : gmap string jsval)
    (salt round prev : list byte) :
  optional_fields (VObj o) = Return (salt, round, prev) ->
  (o !! "salt" = None -> salt = []) /\
  (o !! "roundId" = None -> round = []) /\
  (o !! "prevHash" = None -> prev = []).
Proof.
  unfold optional_fields, opt, getprop. cbn [rbind].
  intros Hf.
  apply rbind_Return in Hf as (saltBuf & Hsalt & Hf).
  apply rbind_Return in Hf as (roundBuf & Hround & Hf).
  apply rbind_Return in Hf as (prevBuf & Hprev & Hf).
  injection Hf as <- <- <-.
  repeat split; intros Hnone.
  - rewrite Hnone in Hsalt. cbn in Hsalt. congruence.
  - rewrite Hnone in Hround. cbn in Hround. congruence.
  - rewrite Hnone in Hprev. cbn in Hprev. congruence.
Qed.
(** The buffer of an optional field that is present is the buffer of
    its value. *)
Lemma optional_fields_present (o : gmap string jsval)
    (salt round prev : list byte) :
  optional_fields (VObj o) = Return (salt, round, prev) ->
  (forall v, o !! "salt" = Some v -> truthy v = true ->
             toBuffer v = Return salt) /\
  (forall v, o !! "roundId" = Some v -> is_nullish v = false ->
             toBuffer (VStr (ToString v)) = Return round) /\
  (forall v, o !! "prevHash" = Some v -> truthy v = true ->
             toBuffer v = Return prev).
Proof.
  unfold optional_fields, opt, getprop. cbn [rbind].
  intros Hf.
  apply rbind_Return in Hf as (saltBuf & Hsalt & Hf).
  apply rbind_Return in Hf as (roundBuf & Hround & Hf).
  apply rbind_Return in Hf as (prevBuf & Hprev & Hf).
  injection Hf as <- <- <-.
  repeat split; intros v Hv Hpresent.
  - rewrite Hv in Hsalt. cbn in Hsalt. by rewrite Hpresent in Hsalt.
  - rewrite Hv in Hround. cbn in Hround. by rewrite Hpresent in Hround.
  - rewrite Hv in Hprev. cbn in Hprev. by rewrite Hpresent in Hprev.
Qed.

(** The call of index.js: the previous hash and the round id are items
    of the inputs array; no options are passed. *)
Lemma orchestrator_mix (prevRoundHash roundId : string)
    (E_list : list string) (t : tape) :
  let buffers :=
    map buffer_of_string (prevRoundHash :: roundId :: E_list) in
  let shuffled := (secureShuffle buffers t).1 in
  Exports.mixRandomness
    [VArr (Index.mixInputArray prevRoundHash roundId (map VStr E_list))] t
  = (Return (VPromise (inl (Exports.of_mix
       {| finalHash := sha256Hex (concat shuffled);
          shuffledHex := map hex_of_bytes shuffled;
          concatenatedHex := hex_of_bytes (concat shuffled);
          preImageHex := hex_of_bytes (concat shuffled) |}))),
     (secureShuffle buffers t).2).
Proof.
  intros buffers shuffled. unfold Exports.mixRandomness, arg. cbn [nth].
  unfold Index.mixInputArray.
  rewrite (mixRandomness_returns
             (VStr prevRoundHash :: VStr roundId :: map VStr E_list)
             VUndefined t buffers [] [] []).
  - reflexivity.
  - apply (toBuffer_strings (prevRoundHash :: roundId :: E_list)).
  - reflexivity.
Qed.

(** X1. In mixRandomness the pre-image is the salt bytes, then the round-id
    bytes, then the previous-hash bytes, each empty when the option is
    absent, followed by the concatenation of the shuffled contribution
    buffers: the fields of the options keep their places in front and the
    contributions alone are permuted. *)
Theorem mixer_preimage_layout :
  (forall items opts t buffers salt round prev,
     rmap toBuffer items = Return buffers ->
     optional_fields (default_param opts (VObj ∅))
       = Return (salt, round, prev) ->
     exists r t' shuffled,
       mixRandomness (VArr items) opts t = (Return r, t') /\
       shuffled ≡ₚ buffers /\
       preImageHex r
       = hex_of_bytes (salt ++ round ++ prev ++ concat shuffled)%list /\
       finalHash r
       = sha256Hex (salt ++ round ++ prev ++ concat shuffled)%list) /\
  (forall o salt round prev,
     optional_fields (VObj o) = Return (salt, round, prev) ->
     (o !! "salt" = None -> salt = []) /\
     (o !! "roundId" = None -> round = []) /\
     (o !! "prevHash" = None -> prev = []) /\
     (forall v, o !! "salt" = Some v -> truthy v = true ->
                toBuffer v = Return salt) /\
     (forall v, o !! "roundId" = Some v -> is_nullish v = false ->
                toBuffer (VStr (ToString v)) = Return round) /\
     (forall v, o !! "prevHash" = Some v -> truthy v = true ->
                toBuffer v = Return prev)).
Proof.
  split.
  { intros items opts t buffers salt round prev Hbuf Hopt.
    eexists. exists (secureShuffle buffers t).2, (secureShuffle buffers t).1.
    split; [apply (mixRandomness_returns items opts t buffers salt round
                     prev Hbuf Hopt) |].
    split; [apply secureShuffle_permutation |].
    split; reflexivity. }
  intros o salt round prev Hf.
  destruct (optional_fields_absent o salt round prev Hf) as (? & ? & ?).
  destruct (optional_fields_present o salt round prev Hf) as (? & ? & ?).
  repeat split; assumption.
Qed.

(** The call of index.js on the namespace of the mixer, in a world. *)
Lemma orchestrator_call (prevRoundHash roundId : string)
    (E_list : list string) (w : Index.world) :
  let buffers :=
    map buffer_of_string (prevRoundHash :: roundId :: E_list) in
  let shuffled := (secureShuffle buffers (Index.entropy w)).1 in
  Index.call "mixer" (Index.mixer imports) "mixRandomness"
    [VArr (Index.mixInputArray prevRoundHash roundId (map VStr E_list))] w
  = (Return (VPromise (inl (Exports.of_mix
       {| finalHash := sha256Hex (concat shuffled);
          shuffledHex := map hex_of_bytes shuffled;
          concatenatedHex := hex_of_bytes (concat shuffled);
          preImageHex := hex_of_bytes (concat shuffled) |}))),
     {| Index.entropy := (secureShuffle buffers (Index.entropy w)).2;
        Index.console := Index.console w |}).
Proof.
  intros buffers shuffled.
  unfold Index.call, call_member, imports, Index.mixer, Exports.mixer, fn.
  cbv beta. rewrite lookup_insert_eq.
  by rewrite (orchestrator_mix prevRoundHash roundId E_list (Index.entropy w)).
Qed.
End PreImageProperties.

(** The theorem with a salt, a round id and a previous hash, on two
    contributions. *)
Lemma mixer_preimage_layout_witness :
  let opts : gmap string jsval :=
    {[ "salt" := VBuf [x01; x02];
       "roundId" := VStr "round-7";
       "prevHash" := VStr "ff00" ]} in
  Mixer.optional_fields (H := Reference.runtime) (VObj opts)
  = Return ([x01; x02], utf8 "round-7", [xff; x00]) /\
  exists r t' shuffled,
    Mixer.mixRandomness (H := Reference.runtime)
      (VArr [VBuf [x0a]; VBuf [x0b]]) (VObj opts) [0]%nat = (Return r, t') /\
    shuffled ≡ₚ [[x0a]; [x0b]] /\
    Mixer.preImageHex r
    = hex_of_bytes ([x01; x02] ++ utf8 "round-7" ++ [xff; x00]
                    ++ concat shuffled)%list /\
    Mixer.finalHash r
    = Mixer.sha256Hex (H := Reference.runtime)
        ([x01; x02] ++ utf8 "round-7" ++ [xff; x00] ++ concat shuffled)%list.
Proof.
  intros opts.
  assert (Mixer.optional_fields (H := Reference.runtime) (VObj opts)
          = Return ([x01; x02], utf8 "round-7", [xff; x00])) as Hopt
    by (vm_compute; reflexivity).
  split; [exact Hopt |].
  apply (proj1 (mixer_preimage_layout (H := Reference.runtime))
           [VBuf [x0a]; VBuf [x0b]] (VObj opts) [0]%nat
           [[x0a]; [x0b]] [x01; x02] (utf8 "round-7") [xff; x00]).
  - reflexivity.
  - exact Hopt.
Defined.

(* ------------------------------------------------------------------ *)

Section RoundProperties.
Import Index.
Context `{Runtime}.

(** C1 fails on the code.  hash.js exports no sha512, and runRound calls
    hashUtils.sha512 before it commits: for every clock, environment and
    collected buffers the round throws a TypeError there.  It neither
    aborts on a failed verification nor returns a record, no secret is
    drawn and the console holds the five opening lines only. *)
Theorem runRound_throws (inp : Inputs) (w : world) :
  runRound inp w
  = (Throw (TypeError "hashUtils.sha512 is not a function"),
     {| entropy := entropy w;
        console := (console w ++ opening_lines inp)%list |}).
Proof.
  unfold runRound, runRound_with, bind, info, log, call, call_member.
  cbn -[String.append pretty string_of_list_ascii repeat].
  unfold opening_lines. rewrite <- !app_assoc. reflexivity.
Qed.
End RoundProperties.

Section Patched.
Import Index.
Context `{Runtime}.

(** mixRandomness is async: a call returns a promise, on which slice is
    no function. *)
Lemma mixRandomness_returns_promise (args : list jsval) (t : tape) :
  exists p t',
    Exports.mixRandomness args t = (Return (VPromise p), t') /\
    slice_method "roundSeed" (VPromise p) 16
    = Throw (TypeError "roundSeed.slice is not a function").
Proof.
  unfold Exports.mixRandomness.
  destruct (Mixer.mixRandomness (arg args 0) (arg args 1) t) as [r t'].
  eauto.
Qed.

(** rewardEngine.js exports neither allocate nor default: the tokens of
    the round are the fallback 0. *)
Lemma rewardEngine_has_no_allocate :
  is_function Exports.rewardEngine "allocate" = false /\
  is_function Exports.rewardEngine "default" = false.
Proof. split; reflexivity. Qed.
End Patched.

(** With a sha512 in place the round verifies its commitment and then
    throws on [roundSeed.slice]: the seed is a promise. *)
Example round_with_sha512_throws :
  (Index.runRound_with (H := Reference.runtime)
     (patched_imports (H := Reference.runtime) sha512_standin
        (Exports.mixRandomness (H := Reference.runtime)))
     sample_inputs sample_world).1
  = Throw (TypeError "roundSeed.slice is not a function").
Proof. vm_compute. reflexivity. Qed.

(** With a sha512 and a mixer that returns the seed, the round completes:
    the score is 55 and the record holds awarded = 0. *)
Example round_awards_zero :
  exists rec w,
    Index.runRound_with (H := Reference.runtime)
      (patched_imports (H := Reference.runtime) sha512_standin sync_mixer)
      sample_inputs sample_world
    = (Return (Some rec), w) /\
    In (Logger.Info, "Uniqueness score: 55 (Moderate)") (Index.console w) /\
    Index.awarded rec = VNum Num.zero.
Proof.
  eexists. eexists. split; [vm_compute; reflexivity |].
  split; [| reflexivity].
  simpl. do 11 right. left. reflexivity.
Qed.

(** C2 fails on the code, in the orchestrator.  The mixer keeps the
    fields of its options in front of the shuffled contributions, but
    runRound passes no options: its call
    mixer.mixRandomness([prevRoundHash, roundId, ...E_list]) hands the
    previous hash and the round id over as contributions.  For every
    previous hash, round id and digests the pre-image of that call is the
    concatenation of a permutation of all of them, nothing being kept in
    front.  With the previous hash 00..00, the round id round-1, the
    digest abab and the draws 0 and 1 the pre-image is the digest, then
    the round id, then the previous hash, and not the round id, the
    previous hash and the digest.  In a whole round, the missing sha512
    supplied and the seed awaited, after the 32 draws of the secret the
    same two draws give a record whose seed is the hash of the digest, the
    round id and the previous hash in this order. *)
Theorem orchestrator_mixes_metadata :
  (forall (H : Runtime) (prevRoundHash roundId : string)
          (E_list : list string) (w : Index.world),
     exists m w' shuffled,
       Index.call "mixer" (Index.mixer imports) "mixRandomness"
         [VArr (Index.mixInputArray prevRoundHash roundId (map VStr E_list))] w
       = (Return (VPromise (inl (Exports.of_mix m))), w') /\
       shuffled
       ≡ₚ map buffer_of_string (prevRoundHash :: roundId :: E_list) /\
       Mixer.preImageHex m = hex_of_bytes (concat shuffled) /\
       Mixer.finalHash m = Mixer.sha256Hex (concat shuffled)) /\
  (let prevRoundHash := string_of_list_ascii (repeat "0"%char 64) in
   let roundId := "round-1" in
   let E := "abab" in
   exists m w',
     Index.call "mixer" (Index.mixer (imports (H := Reference.runtime)))
       "mixRandomness"
       [VArr (Index.mixInputArray prevRoundHash roundId [VStr E])]
       {| Index.entropy := [0; 1]%nat; Index.console := [] |}
     = (Return (VPromise (inl (Exports.of_mix m))), w')
     /\
     Mixer.preImageHex m
     = hex_of_bytes (buffer_of_string E ++ buffer_of_string roundId
                     ++ buffer_of_string prevRoundHash)%list /\
     Mixer.preImageHex m
     <> hex_of_bytes (buffer_of_string roundId
                      ++ buffer_of_string prevRoundHash
                      ++ buffer_of_string E)%list) /\
  (let prevRoundHash := string_of_list_ascii (repeat "0"%char 64) in
   let roundId := "round-1700000000000" in
   exists rec w',
     Index.runRound_with (H := Reference.runtime)
       (patched_imports (H := Reference.runtime) sha512_standin sync_mixer)
       sample_inputs shuffling_world
     = (Return (Some rec), w') /\
     Index.rec_round_id rec = roundId /\
     Index.prev_root_hash rec = prevRoundHash /\
     Index.R_round rec
     = VStr (Mixer.sha256Hex (H := Reference.runtime)
               (buffer_of_string sample_digest ++ buffer_of_string roundId
                ++ buffer_of_string prevRoundHash)%list) /\
     Index.R_round rec
     <> VStr (Mixer.sha256Hex (H := Reference.runtime)
                (buffer_of_string roundId ++ buffer_of_string prevRoundHash
                 ++ buffer_of_string sample_digest)%list)).
Proof.
  split.
  { intros H prevRoundHash roundId E_list w.
    eexists. eexists. eexists.
    split; [apply orchestrator_call |].
    split; [apply secureShuffle_permutation |]. split; reflexivity. }
  split.
  { intros prevRoundHash roundId E. eexists. eexists.
    split; [apply (orchestrator_call (H := Reference.runtime)
                     prevRoundHash roundId [E]
                     {| Index.entropy := [0; 1]%nat; Index.console := [] |}) |].
    split; vm_compute; [reflexivity | discriminate]. }
  intros prevRoundHash roundId. eexists. eexists.
  split; [vm_compute; reflexivity |].
  split; [reflexivity |]. split; [reflexivity |].
  split; vm_compute; [reflexivity | discriminate].
Qed.

(* ------------------------------------------------------------------ *)

Section CommitProperties.
Import Index.

Lemma bytes_of_hex_byte (b : byte) (rest : string) :
  bytes_of_hex (hex_of_byte b ++ rest) = b :: bytes_of_hex rest.
Proof. destruct b; reflexivity. Qed.

Lemma bytes_of_hex_of_bytes (l : list byte) :
  bytes_of_hex (hex_of_bytes l) = l.
Proof.
  induction l as [| b l IH]; [reflexivity |].
  cbn [hex_of_bytes fold_right]. fold (hex_of_bytes l).
  by rewrite bytes_of_hex_byte, IH.
Qed.


Lemma list_ascii_of_append (a b : string) :
  list_ascii_of_string (a ++ b)
  = (list_ascii_of_string a ++ list_ascii_of_string b)%list.
Proof. induction a as [| x a IH]; simpl; [reflexivity | by rewrite IH]. Qed.
End CommitProperties.

(** The encoding of well-formed strings is injective. *)
Section Utf16Properties.
Import Utf16.















End Utf16Properties.

(** runRound compares two hashes of the same text: whatever the other
    modules do, the abort on a failed verification is never taken. *)
Section NeverAborts.
Import Index.
Context `{Runtime}.



End NeverAborts.

Section CommitReveal.
Import Utf16.
Context `{Runtime}.




End CommitReveal.

Section AsciiTexts.
Import Utf16.

Lemma units_app (a b : string) : units (a ++ b) = (units a ++ units b)%list.
Proof.
  unfold units. by rewrite list_ascii_of_append, map_app.
Qed.

Lemma Buffer_from_utf8_units (s : string) :
  is_ascii s = true -> Buffer_from_utf8 (units s) = utf8 s.
Proof.
  unfold is_ascii, units, utf8.
  induction s as [| c s IH]; [reflexivity |].
  cbn [list_ascii_of_string forallb map list_byte_of_string].
  intros Hc. apply andb_true_iff in Hc as [Hc Hs].
  cbn [Buffer_from_utf8].
  assert (is_high (N_of_ascii c) = false) as ->.
  { unfold is_high. apply N.ltb_lt in Hc. apply andb_false_iff. left.
    apply N.leb_gt. lia. }
  assert (is_low (N_of_ascii c) = false) as ->.
  { unfold is_low. apply N.ltb_lt in Hc. apply andb_false_iff. left.
    apply N.leb_gt. lia. }
  unfold utf8_of_code_point. rewrite Hc. cbn [app].
  rewrite (IH Hs). f_equal.
  destruct c as [[] [] [] [] [] [] [] []]; reflexivity.
Qed.

Lemma string_append_assoc (a b c : string) : a ++ b ++ c = (a ++ b) ++ c.
Proof.
  induction a as [| x a IH]; [reflexivity |].
  change (String x (a ++ b ++ c) = String x ((a ++ b) ++ c)). by rewrite IH.
Qed.

Lemma is_ascii_app (a b : string) :
  is_ascii (a ++ b) = is_ascii a && is_ascii b.
Proof.
  unfold is_ascii. by rewrite list_ascii_of_append, forallb_app.
Qed.

Context `{Runtime}.

(** On texts of ASCII characters, which the digests, the secrets and the
    round ids of a round are, the commitment is the one of [Index]. *)
Lemma commitment_of_ascii (E s id : string) :
  is_ascii E = true -> is_ascii s = true -> is_ascii id = true ->
  commitment (units E) (units s) (units id) = Index.commitment E s id /\
  (forall c, verified c (units E) (units s) (units id)
             = Index.verified c E s id).
Proof.
  intros HE Hs Hid.
  assert (value (units E ++ units s ++ units id)%list
          = VStr (Index.commitInput (VStr E) s id)) as Hv.
  { unfold value, Index.commitInput, Index.concat_str. cbn [ToString].
    rewrite <- !units_app, Buffer_from_utf8_units.
    - unfold utf8. by rewrite string_of_list_byte_of_string, string_append_assoc.
    - rewrite !is_ascii_app, HE, Hs, Hid. reflexivity. }
  unfold commitment, verified, Index.commitment, Index.verified.
  rewrite Hv. split; reflexivity.
Qed.
End AsciiTexts.


Section Digest.
Import Reference.

Lemma be_bytes_length (n : nat) (x : Z) : length (be_bytes n x) = n.
Proof. induction n as [| n IH]; simpl; [reflexivity | by rewrite IH]. Qed.

Lemma round256_length (st : list Z) (kw : Z * Z) :
  length st = 8%nat -> length (round256 st kw) = 8%nat.
Proof.
  intros Hst. do 9 (destruct st as [| ? st]; try discriminate Hst).
  reflexivity.
Qed.

Lemma rounds_length (kws : list (Z * Z)) :
  forall st, length st = 8%nat -> length (foldl round256 st kws) = 8%nat.
Proof.
  induction kws as [| kw kws IH]; intros st Hst; [exact Hst |].
  simpl. apply IH. by apply round256_length.
Qed.

Lemma compress_length (hs block : list Z) :
  length hs = 8%nat -> length (compress hs block) = 8%nat.
Proof.
  intros Hhs. unfold compress. rewrite length_zip_with.
  rewrite rounds_length by exact Hhs. lia.
Qed.

Lemma blocks_length (blocks : list (list Z)) :
  forall hs, length hs = 8%nat -> length (foldl compress hs blocks) = 8%nat.
Proof.
  induction blocks as [| b blocks IH]; intros hs Hhs; [exact Hhs |].
  simpl. apply IH. by apply compress_length.
Qed.

Lemma words_bytes_length (hs : list Z) :
  length (concat (map (be_bytes 4) hs)) = (4 * length hs)%nat.
Proof.
  induction hs as [| h hs IH]; [reflexivity |].
  cbn [map concat]. rewrite length_app, be_bytes_length, IH. simpl. lia.
Qed.

Lemma sha256_length (msg : list byte) : length (sha256 msg) = 32%nat.
Proof.
  unfold sha256. rewrite length_map, words_bytes_length.
  rewrite blocks_length; reflexivity.
Qed.
End Digest.

Lemma le_value_bound (l : list byte) :
  (le_value l < 256 ^ N.of_nat (length l))%N.
Proof.
  induction l as [| b l IH]; [simpl; lia |].
  cbn [le_value length]. rewrite Nat2N.inj_succ, N.pow_succ_r'.
  pose proof (Byte.to_N_bounded b). lia.
Qed.

Lemma byte_to_N_inj (a b : byte) : Byte.to_N a = Byte.to_N b -> a = b.
Proof.
  intros E. pose proof (Byte.of_to_N a) as Ha.
  pose proof (Byte.of_to_N b) as Hb.
  rewrite E in Ha. congruence.
Qed.

Lemma le_value_inj (l1 : list byte) :
  forall l2, length l1 = length l2 -> le_value l1 = le_value l2 -> l1 = l2.
Proof.
  induction l1 as [| a l1 IH]; intros [| b l2] Hlen Hval; try discriminate Hlen;
    [reflexivity |].
  cbn [le_value] in Hval.
  pose proof (Byte.to_N_bounded a). pose proof (Byte.to_N_bounded b).
  assert (Byte.to_N a = Byte.to_N b) as Hab by lia.
  assert (le_value l1 = le_value l2) as Hl by lia.
  f_equal; [by apply byte_to_N_inj | apply IH; [by injection Hlen | exact Hl]].
Qed.

(** Functions to digests of a fixed length collide. *)
Lemma digests_collide (n : nat) (f : nat -> list byte) :
  (forall i, length (f i) = n) ->
  exists i j, (i < j)%nat /\ f i = f j.
Proof.
  intros Hlen.
  set (bound := N.to_nat (256 ^ N.of_nat n)).
  destruct (nat_pigeonhole (fun i => N.to_nat (le_value (f i))) (S bound) bound)
    as (i & j & Hij & Heq).
  - apply Nat.lt_succ_diag_r.
  - intros i _. pose proof (le_value_bound (f i)) as Hb. rewrite Hlen in Hb.
    subst bound. lia.
  - exists i, j. split; [lia |].
    apply le_value_inj; [by rewrite !Hlen |].
    by apply N2Nat.inj.
Qed.


(** Whatever the hash function, when its digests have 32 bytes two
    round ids give the same commitment for a digest E and a secret s. *)
Lemma commitments_collide `{Runtime} (E s : string) :
  (forall m, length (createHash_sha256 m) = 32%nat) ->
  exists id id' c,
    id <> id' /\
    Index.commitment E s id = Return c /\
    Index.verified c E s id' = true.
Proof.
  intros Hlen.
  destruct (digests_collide 32
              (fun i : nat =>
                 createHash_sha256
                   (utf8 (Index.commitInput (VStr E) s (pretty i)))))
    as (i & j & Hij & Heq); [intros i; apply Hlen |].
  exists (pretty i), (pretty j). eexists.
  split.
  { intros Hpretty. apply (inj pretty) in Hpretty. lia. }
  split; [reflexivity |].
  unfold Index.verified, HashUtils.sha256.
  cbn [HashUtils.toBuffer rbind strict_equal].
  rewrite Heq. apply String.eqb_refl.
Qed.


(* ------------------------------------------------------------------ *)
(** ** The reference runtime on known values *)

(** The digests of the empty message and of "abc" (FIPS 180-4). *)
Example sha256_test_vectors :
  hex_of_bytes (Reference.sha256 [])
  = "e3b0c44298fc1c149afbf4c8996fb92427ae41e4649b934ca495991b7852b855" /\
  hex_of_bytes (Reference.sha256 (utf8 "abc"))
  = "ba7816bf8f01cfea414140de5dae2223b00361a396177a9cb410ff61f20015ad".
Proof. split; vm_compute; reflexivity. Qed.

(** The empty buffer, with the reason in full. *)
Example detectCheating_empty_reason :
  CheatDetector.detectCheating (H := Reference.runtime) (VBuf []) None
  = Return {| CheatDetector.cheated := true;
              CheatDetector.reason := Some "Entropy too low (0.00)" |}.
Proof. vm_compute. reflexivity. Qed.

(** 600 bytes 0x41 followed by 400 zero bytes. *)
Example detectCheating_600_of_1000 :
  CheatDetector.detectCheating (H := Reference.runtime)
    (VBuf (repeat x41 600 ++ repeat x00 400)) None
  = Return repeated_values.
Proof. vm_compute. reflexivity. Qed.

(** Eight different bytes: no repetition, and against themselves the
    similarity check answers before the entropy check; alone, their
    entropy of 3 bits is too low. *)
Example detectCheating_order_of_checks :
  let bytes := [x00; x01; x02; x03; x04; x05; x06; x07] in
  CheatDetector.detectCheating (H := Reference.runtime)
    (VBuf bytes) (Some bytes)
  = Return {| CheatDetector.cheated := true;
              CheatDetector.reason := Some
                "Randomness is suspiciously similar to previous round (100.00%)" |}
  /\
  CheatDetector.detectCheating (H := Reference.runtime) (VBuf bytes) None
  = Return {| CheatDetector.cheated := true;
              CheatDetector.reason := Some "Entropy too low (3.00)" |}.
Proof. split; vm_compute; reflexivity. Qed.

(* ================================================================== *)
(** * Further properties *)

Section Encoding.

Lemma string_length_app (a b : string) :
  String.length (a ++ b) = (String.length a + String.length b)%nat.
Proof. induction a as [| c a IH]; simpl; [reflexivity | by rewrite IH]. Qed.

Lemma hex_of_bytes_cons (x : byte) (l : list byte) :
  hex_of_bytes (x :: l)
  = String (hex_digit (Byte.to_N x / 16))
      (String (hex_digit (Byte.to_N x mod 16)) (hex_of_bytes l)).
Proof. reflexivity. Qed.

Lemma hex_of_bytes_app (a b : list byte) :
  hex_of_bytes (a ++ b) = hex_of_bytes a ++ hex_of_bytes b.
Proof.
  induction a as [| x a IH]; [reflexivity |].
  rewrite <- app_comm_cons, !hex_of_bytes_cons, IH. reflexivity.
Qed.

Lemma hex_of_bytes_length (l : list byte) :
  String.length (hex_of_bytes l) = (2 * length l)%nat.
Proof.
  induction l as [| x l IH]; [reflexivity |].
  rewrite hex_of_bytes_cons. cbn [String.length length]. rewrite IH. lia.
Qed.

Lemma hex_of_bytes_zeros (n : nat) :
  hex_of_bytes (repeat x00 n)
  = string_of_list_ascii (repeat "0"%char (2 * n)).
Proof.
  induction n as [| n IH]; [reflexivity |].
  replace (2 * S n)%nat with (S (S (2 * n))) by lia.
  cbn [repeat string_of_list_ascii]. rewrite hex_of_bytes_cons, IH.
  reflexivity.
Qed.

Lemma substring_hex (l : list byte) :
  forall n : nat,
    substring 0 (2 * n) (hex_of_bytes l) = hex_of_bytes (take n l).
Proof.
  induction l as [| x l IH]; intros [| n]; try reflexivity.
  replace (2 * S n)%nat with (S (S (2 * n))) by lia.
  cbn [take]. rewrite !hex_of_bytes_cons. cbn [substring]. by rewrite IH.
Qed.

Lemma all_hex_of_bytes (l : list byte) : all_hex (hex_of_bytes l) = true.
Proof.
  induction l as [| x l IH]; [reflexivity |].
  unfold all_hex in *. rewrite hex_of_bytes_cons.
  cbn [list_ascii_of_string forallb].
  rewrite IH, andb_true_r. by destruct x.
Qed.

Lemma is_hex_of_bytes (x : byte) (l : list byte) :
  is_hex (hex_of_bytes (x :: l)) = true
  /\ Nat.even (String.length (hex_of_bytes (x :: l))) = true.
Proof.
  split.
  - unfold is_hex. rewrite all_hex_of_bytes, andb_true_r. reflexivity.
  - rewrite hex_of_bytes_length. apply Nat.even_spec. by exists (length (x :: l)).
Qed.

Lemma strip_0x_hex (l : list byte) :
  Collect.strip_0x (hex_of_bytes l) = hex_of_bytes l.
Proof. destruct l as [| x l]; [reflexivity |]. by destruct x. Qed.


End Encoding.

Section Collection.
Context `{Runtime}.
Import Index Collect.

(** X17. Each piece runRound collects from a buffer,
    [bufferToHex(buf).padEnd(64, '0').slice(0, 64)], is the hex text of
    exactly 32 bytes: the first 32 bytes of the buffer, a shorter buffer
    being filled up with zero bytes at its end.  It has 64 characters
    whatever the buffer. *)
Theorem collected_piece_is_32_bytes (buf : list byte) :
  slice0 (padEnd0 (bufferToHex (VBuf buf)) 64) 64
  = hex_of_bytes (take 32 (buf ++ repeat x00 (32 - length buf)))
  /\ String.length (slice0 (padEnd0 (bufferToHex (VBuf buf)) 64) 64) = 64%nat.
Proof.
  assert (slice0 (padEnd0 (bufferToHex (VBuf buf)) 64) 64
          = hex_of_bytes (take 32 (buf ++ repeat x00 (32 - length buf))))
    as E.
  { unfold slice0, padEnd0, bufferToHex. cbn [truthy negb].
    rewrite hex_of_bytes_length.
    replace (64 - 2 * length buf)%nat with (2 * (32 - length buf))%nat by lia.
    rewrite <- hex_of_bytes_zeros, <- hex_of_bytes_app.
    apply (substring_hex _ 32). }
  split; [exact E |].
  rewrite E, hex_of_bytes_length, length_take, length_app, repeat_length. lia.
Qed.

(** X18. normalizeToBuffer decodes what a collector returns as hex: the
    hex text of a buffer, with or without the prefix 0x, alone or as the
    property hex of an object, gives the buffer back, and a Buffer is
    returned as it is, no randomness being drawn.  The one exception is
    the hex text of the empty buffer: the empty string is falsy and is
    replaced by 32 random bytes. *)
Theorem normalizeToBuffer_hex_round_trip (b : list byte) (t : tape) :
  normalizeToBuffer (VStr (hex_of_bytes b)) t
  = match b with [] => randomBytes t 32 | _ => (b, t) end
  /\ normalizeToBuffer (VStr ("0x" ++ hex_of_bytes b)) t = (b, t)
  /\ normalizeToBuffer (VObj {[ "hex" := VStr (hex_of_bytes b) ]}) t = (b, t)
  /\ normalizeToBuffer (VObj {[ "hex" := VStr ("0x" ++ hex_of_bytes b) ]}) t
     = (b, t)
  /\ normalizeToBuffer (VBuf b) t = (b, t).
Proof.
  destruct b as [| x l].
  - repeat split; reflexivity.
  - destruct (is_hex_of_bytes x l) as [Hhex Heven].
    assert (truthy (VStr (hex_of_bytes (x :: l))) = true) as Ht
      by by destruct x.
    repeat split.
    + unfold normalizeToBuffer. rewrite Ht. cbn [negb].
      rewrite strip_0x_hex, Hhex, Heven. cbn [negb orb].
      by rewrite bytes_of_hex_of_bytes.
    + change (normalizeToBuffer (VStr ("0x" ++ hex_of_bytes (x :: l))) t)
        with (if negb (is_hex (hex_of_bytes (x :: l)))
                 || negb (Nat.even (String.length (hex_of_bytes (x :: l))))
              then (utf8 (hex_of_bytes (x :: l)), t)
              else (bytes_of_hex (hex_of_bytes (x :: l)), t)).
      rewrite Hhex, Heven. cbn [negb orb]. by rewrite bytes_of_hex_of_bytes.
    + unfold normalizeToBuffer, getprop. cbn [truthy negb].
      rewrite lookup_singleton_eq. cbn [default id].
      by rewrite strip_0x_hex, bytes_of_hex_of_bytes.
    + unfold normalizeToBuffer, getprop. cbn [truthy negb].
      rewrite lookup_singleton_eq. cbn [default id].
      change (Collect.strip_0x ("0x" ++ hex_of_bytes (x :: l)))
        with (hex_of_bytes (x :: l)).
      by rewrite bytes_of_hex_of_bytes.
Qed.

End Collection.

Section SafeCollect.
Context `{Runtime}.
Import Index Collect.


End SafeCollect.

Section ShuffleProperties.
Import Mixer.

Lemma draw_rest (t : tape) : (draw t).2 = drop 1 t.
Proof. by destruct t. Qed.

Lemma shuffle_from_draws {A} (i : nat) :
  forall (arr : list A) (t : tape), (shuffle_from i arr t).2 = drop i t.
Proof.
  induction i as [| i IH]; intros arr t; [reflexivity |].
  cbn [shuffle_from]. unfold randomInt.
  pose proof (draw_rest t) as Hd. destruct (draw t) as [r t1].
  cbn [snd] in Hd. rewrite IH, Hd, drop_drop. f_equal.
Qed.

Lemma shuffle_from_prefix {A} (i : nat) :
  forall (arr : list A) (t t' : tape),
    take i t = take i t' ->
    (shuffle_from i arr t).1 = (shuffle_from i arr t').1.
Proof.
  induction i as [| i IH]; intros arr t t' Ht; [reflexivity |].
  cbn [shuffle_from]. unfold randomInt.
  destruct t as [| r t], t' as [| r' t']; try discriminate.
  - reflexivity.
  - cbn [take] in Ht. injection Ht as -> Ht. cbn [draw]. by apply IH.
Qed.

Lemma shuffle_from_reaches {A} (i : nat) :
  forall arr target : list A,
    (S i <= length arr)%nat ->
    take (S i) arr ≡ₚ take (S i) target ->
    drop (S i) arr = drop (S i) target ->
    exists t : tape, length t = i /\ (shuffle_from i arr t).1 = target.
Proof.
  induction i as [| i IH]; intros arr target Hlen Htake Hdrop.
  - exists []. split; [reflexivity |]. cbn [shuffle_from fst].
    destruct arr as [| a arr]; [simpl in Hlen; lia |].
    destruct target as [| b target].
    + apply Permutation_length in Htake. discriminate.
    + simpl in Htake, Hdrop. rewrite !take_0 in Htake.
      apply Permutation_singleton_inj in Htake.
      rewrite !drop_0 in Hdrop. congruence.
  - assert (S (S i) <= length target)%nat as Hlen'.
    { apply Permutation_length in Htake. rewrite !length_take in Htake. lia. }
    destruct (lookup_lt_is_Some_2 target (S i)) as [x Hx]; [lia |].
    destruct (lookup_lt_is_Some_2 arr (S i)) as [y Hy]; [lia |].
    assert (x ∈ take (S (S i)) arr) as Hin.
    { rewrite Htake. apply list_elem_of_lookup. exists (S i).
      rewrite lookup_take_lt by lia. exact Hx. }
    apply list_elem_of_lookup in Hin as [j Hj].
    assert (j < S (S i))%nat as Hjlt.
    { apply lookup_lt_Some in Hj. rewrite length_take in Hj. lia. }
    rewrite lookup_take_lt in Hj by exact Hjlt.
    set (arr' := swap arr (S i) j).
    assert (arr' = <[j := y]> (<[S i := x]> arr)) as Harr'.
    { unfold arr', swap. by rewrite Hy, Hj. }
    assert (length arr' = length arr) as Hlen_arr'.
    { rewrite Harr', !length_insert. reflexivity. }
    assert (arr' !! S i = Some x) as Hx'.
    { rewrite Harr'. destruct (decide (j = S i)) as [-> | Hne].
      - rewrite list_lookup_insert_eq by (rewrite length_insert; lia).
        congruence.
      - rewrite list_lookup_insert_ne by exact Hne.
        apply list_lookup_insert_eq. lia. }
    destruct (IH arr' target) as (t & Ht & Hres).
    + lia.
    + apply (Permutation_app_inv_r [x]).
      rewrite <- (take_S_r _ _ _ Hx'), <- (take_S_r _ _ _ Hx), <- Htake.
      assert (take (S (S i)) arr' = swap (take (S (S i)) arr) (S i) j) as ->.
      { unfold swap. rewrite !lookup_take_lt by lia. rewrite Hy, Hj, Harr'.
        destruct (decide (j = S i)) as [-> | Hne].
        - rewrite !take_insert_lt by lia. reflexivity.
        - rewrite !take_insert_lt by lia. reflexivity. }
      apply swap_permutation.
    + rewrite (drop_S _ _ _ Hx'), (drop_S _ _ _ Hx). f_equal.
      rewrite <- Hdrop, Harr'. rewrite !drop_insert_lt by lia. reflexivity.
    + exists (j :: t). split; [simpl; lia |].
      cbn [shuffle_from]. unfold randomInt. cbn [draw].
      replace (0 + j mod (S i + 1 - 0))%nat with j; [exact Hres |].
      rewrite Nat.mod_small by lia. reflexivity.
Qed.

(** X2. secureShuffle can produce every ordering: for each permutation
    of the buffers there are length - 1 draws of crypto.randomInt on
    which the shuffle returns it. *)
Theorem secureShuffle_reaches_every_order {A} (buffers target : list A) :
  target ≡ₚ buffers ->
  exists t : tape,
    length t = (length buffers - 1)%nat /\
    (secureShuffle buffers t).1 = target.
Proof.
  intros Hperm. unfold secureShuffle.
  destruct buffers as [| b buffers].
  - apply Permutation_nil_r in Hperm as ->. by exists [].
  - apply shuffle_from_reaches.
    + simpl. lia.
    + replace (S (length (b :: buffers) - 1)) with (length (b :: buffers))
        by (simpl; lia).
      rewrite take_ge by lia.
      rewrite take_ge by (apply Permutation_length in Hperm; lia).
      by symmetry.
    + replace (S (length (b :: buffers) - 1)) with (length (b :: buffers))
        by (simpl; lia).
      rewrite drop_ge by lia.
      rewrite drop_ge by (apply Permutation_length in Hperm; lia).
      reflexivity.
Qed.

(** X3. secureShuffle keeps the number of buffers, draws exactly
    length - 1 random integers (none for an empty or a one-element list)
    and its result depends on these draws only. *)
Theorem secureShuffle_draws {A} (buffers : list A) (t t' : tape) :
  length (secureShuffle buffers t).1 = length buffers /\
  (secureShuffle buffers t).2 = drop (length buffers - 1) t /\
  (take (length buffers - 1) t = take (length buffers - 1) t' ->
   (secureShuffle buffers t).1 = (secureShuffle buffers t').1).
Proof.
  split; [apply Permutation_length, secureShuffle_permutation |].
  split; [apply shuffle_from_draws | apply shuffle_from_prefix].
Qed.

End ShuffleProperties.

(** The theorem on three numbers, for a rotation of them. *)
Lemma secureShuffle_reaches_every_order_witness :
  exists t : tape,
    length t = (length [1; 2; 3] - 1)%nat /\
    (Mixer.secureShuffle [1; 2; 3] t).1 = [3; 1; 2].
Proof.
  apply (secureShuffle_reaches_every_order [1; 2; 3] [3; 1; 2]).
  change [3; 1; 2] with ([3] ++ [1; 2])%list.
  change [1; 2; 3] with ([1; 2] ++ [3])%list.
  apply Permutation_app_comm.
Defined.

Section MixerMore.
Import Mixer.
Context `{Runtime}.

Lemma toBuffer_hex (b : list byte) :
  toBuffer (VStr (hex_of_bytes b)) = Return b.
Proof.
  destruct b as [| x l]; [reflexivity |].
  destruct (is_hex_of_bytes x l) as [Hhex Heven].
  unfold toBuffer. rewrite Hhex, Heven. cbn [andb].
  by rewrite bytes_of_hex_of_bytes.
Qed.

Lemma rmap_toBuffer_buffers (bs : list (list byte)) :
  rmap toBuffer (map VBuf bs) = Return bs.
Proof.
  induction bs as [| b bs IH]; [reflexivity |].
  cbn [map rmap toBuffer rbind]. by rewrite IH.
Qed.

Lemma rmap_toBuffer_hex (bs : list (list byte)) :
  rmap toBuffer (map (fun b => VStr (hex_of_bytes b)) bs) = Return bs.
Proof.
  induction bs as [| b bs IH]; [reflexivity |].
  cbn [map rmap]. rewrite toBuffer_hex. cbn [rbind]. by rewrite IH.
Qed.

Lemma rmap_length {A B} (f : A -> result B) (l : list A) (l' : list B) :
  rmap f l = Return l' -> length l' = length l.
Proof.
  revert l'. induction l as [| x l IH]; intros l' Hl.
  - injection Hl as <-. reflexivity.
  - cbn [rmap] in Hl. destruct (f x) as [y | e]; [| discriminate].
    cbn [rbind] in Hl. destruct (rmap f l) as [ys | e]; [| discriminate].
    injection Hl as <-. simpl. by rewrite (IH ys).
Qed.

(** X5. mixRandomness takes a contribution as a Buffer or as its hex
    text alike: on the same options and draws the two calls give the same
    result.  The entries of shuffledHex convert back to the shuffled
    buffers. *)
Theorem mixRandomness_hex_or_buffers (bs : list (list byte)) (opts : jsval)
    (t : tape) :
  mixRandomness (VArr (map (fun b => VStr (hex_of_bytes b)) bs)) opts t
  = mixRandomness (VArr (map VBuf bs)) opts t
  /\ rmap toBuffer
       (map VStr (map hex_of_bytes (secureShuffle bs t).1))
     = Return (secureShuffle bs t).1.
Proof.
  split.
  - unfold mixRandomness. by rewrite rmap_toBuffer_hex, rmap_toBuffer_buffers.
  - rewrite map_map. apply rmap_toBuffer_hex.
Qed.

(** X4. mixRandomness checks and converts all its arguments before it
    shuffles: a call that throws has drawn no random integer, and a call
    that returns has drawn one less than the number of inputs. *)
Theorem mixRandomness_draws (inputs opts : jsval) (t : tape) :
  (mixRandomness inputs opts t).2
  = if throws (mixRandomness inputs opts t).1 then t
    else drop (length_of inputs - 1) t.
Proof.
  unfold mixRandomness. destruct inputs as [| | | | | | items | | |];
    try reflexivity.
  destruct (rmap toBuffer items) as [buffers | e] eqn:Hbuf; [| reflexivity].
  destruct (optional_fields (default_param opts (VObj ∅)))
    as [[[salt round] prev] | e]; [| reflexivity].
  pose proof (shuffle_from_draws (length buffers - 1) buffers t) as Hd.
  fold (secureShuffle buffers t) in Hd.
  destruct (secureShuffle buffers t) as [shuffled t']. cbn [fst snd throws] in *.
  rewrite Hd. cbn [length_of]. by rewrite (rmap_length _ _ _ Hbuf).
Qed.

End MixerMore.

Section DetectorMore.
Import CheatDetector.
Context `{Runtime}.

Lemma key_of_byte (b : byte) :
  key_of (VNum (byte_num b)) = pretty (Z.of_N (Byte.to_N b)).
Proof. destruct b; vm_compute; reflexivity. Qed.

Lemma key_of_byte_inj (a b : byte) :
  key_of (VNum (byte_num a)) = key_of (VNum (byte_num b)) -> a = b.
Proof.
  rewrite !key_of_byte. intros E. apply (inj pretty) in E.
  apply byte_to_N_inj. lia.
Qed.

Lemma byte_keys_count_eq (bytes : list byte) (b : byte) :
  count_occ string_dec
    (map key_of (map (fun x => VNum (byte_num x)) bytes))
    (key_of (VNum (byte_num b)))
  = count_occ Byte.byte_eq_dec bytes b.
Proof.
  induction bytes as [| x bytes IH]; [reflexivity |].
  cbn [map]. destruct (Byte.byte_eq_dec x b) as [-> | Hne].
  - rewrite !count_occ_cons_eq by reflexivity. by rewrite IH.
  - rewrite (count_occ_cons_neq _ _ Hne).
    rewrite count_occ_cons_neq; [exact IH |].
    intros E. by apply key_of_byte_inj in E.
Qed.

Lemma repetition_loop_sound (len : nat) (items : list jsval) :
  forall reps : counters,
    repetition_loop len reps items = true ->
    exists k : string,
      (len < 2 * (count_of reps k
                  + count_occ string_dec (map key_of items) k))%nat.
Proof.
  induction items as [| x items IH]; intros reps Hloop; [discriminate |].
  cbn [repetition_loop] in Hloop. fold (key_of x) in Hloop.
  destruct (len <? 2 * count_of (bump reps (key_of x)) (key_of x))%nat
    eqn:Hfire.
  - exists (key_of x). apply Nat.ltb_lt in Hfire.
    rewrite count_of_bump_eq in Hfire. cbn [map].
    rewrite count_occ_cons_eq by reflexivity. lia.
  - destruct (IH _ Hloop) as [k Hk]. exists k. cbn [map].
    destruct (string_dec (key_of x) k) as [E | Hne].
    + rewrite count_occ_cons_eq by exact E. subst k.
      rewrite count_of_bump_eq in Hk. lia.
    + rewrite count_occ_cons_neq by exact Hne.
      rewrite count_of_bump_ne in Hk by congruence. exact Hk.
Qed.

(** X6. On a Buffer the repetition check is exact: detectCheating
    answers "Too many repeated values (low randomness)" if and only if
    some byte value fills more than half of the buffer, with or without a
    previous buffer. *)
Theorem detectCheating_repeated_iff (bytes : list byte)
    (previous : option (list byte)) :
  detectCheating (VBuf bytes) previous = Return repeated_values
  <-> exists b : byte,
        (length bytes < 2 * count_occ Byte.byte_eq_dec bytes b)%nat.
Proof.
  split; [| intros [b Hb]; by apply repetition_first with b].
  unfold detectCheating. cbn [iterate rbind length_of].
  destruct (repetition_loop _ _ _) eqn:Hloop.
  - intros _. apply repetition_loop_sound in Hloop as [k Hk].
    cbn [count_of] in Hk.
    assert (In k (map key_of (map (fun x => VNum (byte_num x)) bytes)))
      as Hin by (apply (count_occ_In string_dec); lia).
    apply in_map_iff in Hin as (v & <- & Hin).
    apply in_map_iff in Hin as (b & <- & _).
    exists b. rewrite byte_keys_count_eq in Hk. lia.
  - intros Hres. exfalso. revert Hres.
    destruct previous as [previous |]; cbn [rbind].
    + unfold bufferSimilarity. cbn [truthy negb iterate rbind].
      destruct (Num.gt _ _); cbn [rbind].
      * intros Hres. injection Hres as Hres. discriminate Hres.
      * unfold calculateEntropy. cbn [iterate rbind].
        destruct (Num.lt _ _); intros Hres; injection Hres as Hres;
          discriminate Hres.
    + unfold calculateEntropy. cbn [iterate rbind].
      destruct (Num.lt _ _); intros Hres; injection Hres as Hres;
        discriminate Hres.
Qed.



End DetectorMore.

Section ScorerMore.
Import UniquenessScore.

Lemma blocks_upto_concat (blockSize : nat) :
  (0 < blockSize)%nat ->
  forall (n : nat) (buf : list byte),
    (length buf <= n)%nat ->
    concat (blocks_upto n buf blockSize) = buf.
Proof.
  intros Hpos. induction n as [| n IH]; intros buf Hlen.
  - destruct buf; [reflexivity | simpl in Hlen; lia].
  - destruct buf as [| x buf]; [reflexivity |].
    cbn [blocks_upto concat]. rewrite IH; [apply take_drop |].
    rewrite length_drop. simpl in *. lia.
Qed.

Lemma blocks_upto_length (blockSize : nat) :
  (0 < blockSize)%nat ->
  forall (n : nat) (buf : list byte),
    (length buf <= n)%nat ->
    length (blocks_upto n buf blockSize)
    = ((length buf + blockSize - 1) / blockSize)%nat.
Proof.
  intros Hpos. induction n as [| n IH]; intros buf Hlen.
  - destruct buf; [| simpl in Hlen; lia]. simpl.
    symmetry. apply Nat.div_small. lia.
  - destruct buf as [| x buf].
    + simpl. symmetry. apply Nat.div_small. lia.
    + cbn [blocks_upto length]. rewrite IH by (rewrite length_drop; simpl in *; lia).
      rewrite length_drop. set (len := length (x :: buf)).
      assert (len = S (length buf)) as Hl by reflexivity. clearbody len.
      destruct (decide (blockSize <= len)%nat) as [Hle | Hgt].
      * replace (len - blockSize + blockSize - 1)%nat with (len - 1)%nat
          by lia.
        pose proof (Nat.div_mod_eq (len - 1) blockSize) as Hdm.
        pose proof (Nat.mod_upper_bound (len - 1) blockSize) as Hr.
        apply (Nat.div_unique _ _ _ ((len - 1) mod blockSize)); [lia |].
        rewrite Nat.mul_succ_r. lia.
      * replace (len - blockSize + blockSize - 1)%nat
          with (blockSize - 1)%nat by lia.
        rewrite Nat.div_small by lia.
        apply (Nat.div_unique _ _ _ (len - 1)); lia.
Qed.

Lemma blocks_upto_sizes (blockSize : nat) :
  (0 < blockSize)%nat ->
  forall (n : nat) (buf : list byte) (i : nat) (b : list byte),
    blocks_upto n buf blockSize !! i = Some b ->
    (0 < length b <= blockSize)%nat /\
    ((S i < length (blocks_upto n buf blockSize))%nat ->
     length b = blockSize).
Proof.
  intros Hpos. induction n as [| n IH]; intros buf i b Hb.
  - destruct buf; discriminate.
  - destruct buf as [| x buf]; [discriminate |].
    cbn [blocks_upto] in *. destruct i as [| i].
    + injection Hb as <-. rewrite length_take. split; [simpl; lia |].
      cbn [length]. intros Hmore.
      destruct (blocks_upto n (drop blockSize (x :: buf)) blockSize)
        as [| b' bs'] eqn:Hrest; [simpl in Hmore; lia |].
      assert (drop blockSize (x :: buf) <> []) as Hne.
      { intros E. rewrite E in Hrest. destruct n; discriminate. }
      assert (blockSize < S (length buf))%nat; [| lia].
      destruct (decide (blockSize < S (length buf))%nat); [done |].
      exfalso. apply Hne. apply drop_ge. cbn [length]. lia.
    + destruct (IH _ _ _ Hb) as [Hsz Hfull]. split; [exact Hsz |].
      cbn [length]. intros Hmore. apply Hfull. lia.
Qed.

Context `{Runtime}.

(** X9. blockEntropies cuts the buffer into consecutive blocks: their
    concatenation is the buffer, there are ceil(length / blockSize) of
    them, none is empty, and all but the last hold blockSize bytes. *)
Theorem blockEntropies_partition (buf : list byte) (blockSize : nat) :
  (0 < blockSize)%nat ->
  let blocks := blocks_upto (length buf) buf blockSize in
  blockEntropies buf blockSize = map shannonEntropyBits blocks /\
  concat blocks = buf /\
  length (blockEntropies buf blockSize)
  = ((length buf + blockSize - 1) / blockSize)%nat /\
  (forall (i : nat) (b : list byte),
     blocks !! i = Some b ->
     (0 < length b <= blockSize)%nat /\
     ((S i < length blocks)%nat -> length b = blockSize)).
Proof.
  intros Hpos blocks. split; [reflexivity |].
  split; [by apply blocks_upto_concat |].
  split.
  - unfold blockEntropies. rewrite length_map. by apply blocks_upto_length.
  - intros i b. by apply blocks_upto_sizes.
Qed.




End ScorerMore.

(** The theorem on 70 bytes in blocks of 32: three blocks. *)
Lemma blockEntropies_partition_witness :
  (0 < 32)%nat /\
  concat (UniquenessScore.blocks_upto (length (repeat x07 70))
            (repeat x07 70) 32) = repeat x07 70 /\
  length (UniquenessScore.blockEntropies (H := Reference.runtime)
            (repeat x07 70) 32) = 3%nat.
Proof.
  assert (0 < 32)%nat as Hpos by lia.
  split; [exact Hpos |].
  destruct (blockEntropies_partition (H := Reference.runtime)
              (repeat x07 70) 32 Hpos) as (_ & Hc & Hl & _).
  split; [exact Hc | exact Hl].
Defined.

Section RewardMore.
Import RewardEngine.

Lemma round_of_small_integer (s : Z) :
  0 <= s <= 100 -> Integral.round (Num.of_Z s) = Int s.
Proof.
  intros Hs.
  assert (forallb (fun n => match Integral.round (Num.of_Z (Z.of_nat n)) with
                            | Int z => z =? Z.of_nat n
                            | _ => false
                            end) (seq 0 101) = true) as Hall
    by (vm_compute; reflexivity).
  rewrite forallb_forall in Hall.
  specialize (Hall (Z.to_nat s)). rewrite Z2Nat.id in Hall by lia.
  destruct (Integral.round (Num.of_Z s)) as [| |z].
  - discriminate Hall. apply in_seq. lia.
  - discriminate Hall. apply in_seq. lia.
  - f_equal. apply Z.eqb_eq. apply Hall. apply in_seq. lia.
Qed.

Lemma of_small_integer_not_NaN (s : Z) :
  0 <= s <= 100 -> Num.isNaN (Num.of_Z s) = false.
Proof.
  intros Hs.
  assert (forallb (fun n => negb (Num.isNaN (Num.of_Z (Z.of_nat n))))
                  (seq 0 101) = true) as Hall by (vm_compute; reflexivity).
  rewrite forallb_forall in Hall.
  specialize (Hall (Z.to_nat s)). rewrite Z2Nat.id in Hall by lia.
  apply negb_true_iff, Hall, in_seq. lia.
Qed.

Lemma computeReward_inv (v : jsval) (r : Reward) :
  computeReward v = Return r ->
  exists (x : number) (s : Z),
    v = VNum x /\ Num.isNaN x = false /\ 0 <= s <= 100 /\
    Integral.max (Int 0) (Integral.min (Int 100) (Integral.round x)) = Int s /\
    r = (if 80 <? s then
           {| score := Int s; tokens := 5; category := "High Entropy";
              reason := "Score above 80: highest reward bracket" |}
         else if 50 <=? s then
           {| score := Int s; tokens := 3; category := "Medium Entropy";
              reason := "Score between 50 and 80: medium reward bracket" |}
         else
           {| score := Int s; tokens := 1; category := "Low Entropy";
              reason := "Score below 50: baseline reward" |}).
Proof.
  intros Hr. destruct v; try discriminate Hr.
  destruct (Num.isNaN x) eqn:Hx.
  { unfold computeReward in Hr. rewrite Hx in Hr. discriminate. }
  destruct (clamp_integral (Integral.round x) (round_not_NaN x Hx))
    as (s & Hs & Hclamp).
  exists x, s. repeat split; try done; try lia.
  rewrite (computeReward_of_clamped x s Hx Hclamp) in Hr. congruence.
Qed.

(** X11. The score computeReward returns is a fixed point: computeReward
    on it returns the same reward. *)
Theorem computeReward_score_is_fixed_point (v : jsval) (r : Reward) :
  computeReward v = Return r ->
  computeReward (VNum (Integral.to_number (score r))) = Return r.
Proof.
  intros Hr.
  destruct (computeReward_inv v r Hr) as (x & s & -> & Hx & Hs & Hclamp & Er).
  assert (score r = Int s) as ->.
  { rewrite Er. destruct (80 <? s); [reflexivity |].
    destruct (50 <=? s); reflexivity. }
  rewrite Er. cbn [Integral.to_number].
  apply computeReward_of_clamped.
  - by apply of_small_integer_not_NaN.
  - rewrite round_of_small_integer by exact Hs. simpl. f_equal. lia.
Qed.

Lemma round_as_quotient (a e k : Z) :
  k <= e -> k <= 0 ->
  (if 0 <=? e then a * 2 ^ e
   else (2 * a + 2 ^ (- e)) / 2 ^ (1 - e))
  = (2 * (a * 2 ^ (e - k)) + 2 ^ (- k)) / (2 * 2 ^ (- k)).
Proof.
  intros Hke Hk.
  assert (0 < 2 ^ (- k)) as HD by (apply Z.pow_pos_nonneg; lia).
  destruct (0 <=? e) eqn:He.
  - apply Z.leb_le in He.
    replace (e - k) with (e + - k) by lia.
    rewrite Z.pow_add_r by lia.
    replace (2 * (a * (2 ^ e * 2 ^ (- k))) + 2 ^ (- k))
      with (a * 2 ^ e * (2 * 2 ^ (- k)) + 2 ^ (- k)) by ring.
    rewrite Z.div_add_l by lia.
    rewrite Z.div_small by lia. lia.
  - apply Z.leb_gt in He.
    assert (0 < 2 ^ (- e)) as Hd by (apply Z.pow_pos_nonneg; lia).
    assert (0 < 2 ^ (e - k)) as Hc by (apply Z.pow_pos_nonneg; lia).
    replace (1 - e) with (1 + - e) by lia.
    rewrite Z.pow_add_r by lia. change (2 ^ 1) with 2.
    replace (- k) with (- e + (e - k)) by lia.
    rewrite Z.pow_add_r by lia.
    replace (2 * (a * 2 ^ (e - k)) + 2 ^ (- e) * 2 ^ (e - k))
      with ((2 * a + 2 ^ (- e)) * 2 ^ (e - k)) by ring.
    replace (2 * (2 ^ (- e) * 2 ^ (e - k)))
      with (2 * 2 ^ (- e) * 2 ^ (e - k)) by ring.
    rewrite Z.div_mul_cancel_r by lia. reflexivity.
Qed.

Lemma round_dyadic (x : number) (a e : Z) :
  dyadic x = Some (a, e) ->
  Integral.round x
  = Int (if 0 <=? e then a * 2 ^ e
         else (2 * a + 2 ^ (- e)) / 2 ^ (1 - e)).
Proof.
  destruct x as [s | s | | s m e']; try discriminate; intros [= <- <-].
  - reflexivity.
  - unfold Integral.round. by destruct (0 <=? e').
Qed.

Lemma round_monotone_dyadic (a e1 b e2 : Z) :
  a * 2 ^ (e1 - Z.min e1 e2) <= b * 2 ^ (e2 - Z.min e1 e2) ->
  (if 0 <=? e1 then a * 2 ^ e1
   else (2 * a + 2 ^ (- e1)) / 2 ^ (1 - e1))
  <= (if 0 <=? e2 then b * 2 ^ e2
      else (2 * b + 2 ^ (- e2)) / 2 ^ (1 - e2)).
Proof.
  intros Hle.
  set (k := Z.min (Z.min e1 e2) 0).
  rewrite (round_as_quotient a e1 k), (round_as_quotient b e2 k)
    by (unfold k; lia).
  assert (0 < 2 ^ (- k)) as HD by (apply Z.pow_pos_nonneg; unfold k; lia).
  apply Z.div_le_mono; [lia |].
  assert (a * 2 ^ (e1 - k) <= b * 2 ^ (e2 - k)); [| lia].
  set (c := 2 ^ (Z.min e1 e2 - k)).
  assert (0 < c) as Hc by (apply Z.pow_pos_nonneg; unfold k; lia).
  replace (e1 - k) with ((e1 - Z.min e1 e2) + (Z.min e1 e2 - k)) by lia.
  replace (e2 - k) with ((e2 - Z.min e1 e2) + (Z.min e1 e2 - k)) by lia.
  rewrite !Z.pow_add_r by (unfold k; lia). fold c.
  rewrite !Z.mul_assoc. apply Z.mul_le_mono_nonneg_r; [lia | exact Hle].
Qed.

Lemma round_monotone (x y : number) :
  value_le x y ->
  Integral.le (Integral.round x) (Integral.round y) = true.
Proof.
  intros Hle.
  destruct (dyadic x) as [[a e1] |] eqn:Hx, (dyadic y) as [[b e2] |] eqn:Hy.
  - assert (a * 2 ^ (e1 - Z.min e1 e2) <= b * 2 ^ (e2 - Z.min e1 e2)) as H.
    { destruct x as [| | |], y as [| | |]; try discriminate;
        unfold value_le in Hle; rewrite ?Hx, ?Hy in Hle; exact Hle. }
    rewrite (round_dyadic x a e1 Hx), (round_dyadic y b e2 Hy).
    pose proof (round_monotone_dyadic a e1 b e2 H) as Hm.
    unfold Integral.le, Integral.lt. apply negb_true_iff, Z.ltb_ge. exact Hm.
  - rewrite (round_dyadic x a e1 Hx).
    destruct y as [| [] | |]; try discriminate; try (exfalso; exact Hle);
      destruct x as [| | |]; try discriminate; try reflexivity;
      exfalso; exact Hle.
  - rewrite (round_dyadic y b e2 Hy).
    destruct x as [| [] | |]; try discriminate; try (exfalso; exact Hle);
      destruct y as [| | |]; try discriminate; try reflexivity;
      exfalso; exact Hle.
  - destruct x as [| [] | |], y as [| [] | |]; try discriminate;
      try reflexivity; exfalso; exact Hle.
Qed.

(** X12. computeReward is monotone: of two numbers the larger one is
    given a score and a number of tokens at least as large. *)
Theorem computeReward_monotone (x y : number) (rx ry : Reward) :
  value_le x y ->
  computeReward (VNum x) = Return rx ->
  computeReward (VNum y) = Return ry ->
  Integral.le (score rx) (score ry) = true /\ tokens rx <= tokens ry.
Proof.
  intros Hle Hx Hy.
  destruct (computeReward_inv _ _ Hx) as (x' & s & [= <-] & _ & Hs & Hcx & Ex).
  destruct (computeReward_inv _ _ Hy) as (y' & u & [= <-] & _ & Hu & Hcy & Ey).
  assert (s <= u) as Hsu.
  { pose proof (round_monotone x y Hle) as Hr.
    destruct (Integral.round x) as [| [] | zx],
             (Integral.round y) as [| [] | zy];
      try discriminate Hr; simpl in Hcx, Hcy;
      injection Hcx as <-; injection Hcy as <-; try lia.
    unfold Integral.le, Integral.lt in Hr.
    apply negb_true_iff, Z.ltb_ge in Hr. lia. }
  assert (score rx = Int s /\
          tokens rx = (if 80 <? s then 5 else if 50 <=? s then 3 else 1))
    as [-> ->].
  { rewrite Ex. destruct (80 <? s); [split; reflexivity |].
    destruct (50 <=? s); split; reflexivity. }
  assert (score ry = Int u /\
          tokens ry = (if 80 <? u then 5 else if 50 <=? u then 3 else 1))
    as [-> ->].
  { rewrite Ey. destruct (80 <? u); [split; reflexivity |].
    destruct (50 <=? u); split; reflexivity. }
  split.
  - unfold Integral.le, Integral.lt. apply negb_true_iff, Z.ltb_ge. lia.
  - destruct (80 <? s) eqn:H1, (80 <? u) eqn:H2,
             (50 <=? s) eqn:H3, (50 <=? u) eqn:H4; lia.
Qed.

Context `{Runtime}.

(** X13. awardTokensToBalance never changes an object that exists when
    it is called, whatever its arguments and whether it returns or
    throws: what it writes, it writes to the object it creates. *)
Theorem awardTokensToBalance_keeps_every_object
    (h : heap) (minerId : jsval) (balances : argument) (score : jsval) :
  h ⊆ (awardTokensToBalance h minerId balances score).2.
Proof.
  apply map_subseteq_spec. intros l0 o Hl0.
  assert (forall (h1 : heap) (o1 : gmap string jsval),
            h1 !! l0 = Some o -> (alloc h1 o1).2 !! l0 = Some o) as Halloc.
  { intros h1 o1 H1. unfold alloc. cbn [snd].
    rewrite lookup_insert_ne; [exact H1 |].
    intros E. pose proof (alloc_fresh h1 o1) as Hf.
    unfold alloc in Hf. cbn [fst] in Hf. congruence. }
  assert (forall (h1 : heap) (b : argument),
            match b with Val VUndefined => False | _ => True end ->
            h1 !! l0 = Some o ->
            (awardTokensToBalance h1 minerId b score).2 !! l0 = Some o)
    as Hbody.
  { intros h1 b Hb H1. unfold awardTokensToBalance.
    assert (match b with
            | Val VUndefined => let '(l, h0) := alloc h1 ∅ in (Ref l, h0)
            | _ => (b, h1)
            end = (b, h1)) as ->.
    { destruct b as [[] |]; try reflexivity. contradiction. }
    destruct minerId; try exact H1.
    destruct (String.eqb s ""); [exact H1 |].
    destruct (negb _); [exact H1 |].
    destruct (computeReward score) as [r | e]; [| exact H1].
    pose proof (Halloc h1 ∅ H1) as H2.
    pose proof (alloc_fresh h1 ∅) as Hf.
    destruct (alloc h1 ∅) as [l' h2]. cbn [fst snd] in *.
    assert (l' <> l0) as Hne by (intros ->; congruence).
    unfold store, Object_assign. cbn [snd].
    destruct (String.eqb s "__proto__").
    - rewrite lookup_alter_ne by exact Hne. exact H2.
    - rewrite !lookup_alter_ne by exact Hne. exact H2. }
  destruct balances as [v | l].
  - destruct v; try (apply Hbody; [exact I | exact Hl0]).
    (* the default parameter: a new empty object *)
    pose proof (Halloc h ∅ Hl0) as H1.
    pose proof (Hbody (alloc h ∅).2 (Ref (alloc h ∅).1) I H1) as Hb.
    unfold awardTokensToBalance in *.
    destruct (alloc h ∅) as [l1 h1]. exact Hb.
  - apply Hbody; [exact I | exact Hl0].
Qed.

End RewardMore.

Section CliProperties.
Import RewardEngine RewardCLI.
Context `{Runtime}.
Variables (JSON_stringify_indented inspect : jsval -> string).

Lemma computeReward_returns (x : number) :
  Num.isNaN x = false -> exists r, computeReward (VNum x) = Return r.
Proof.
  intros Hx.
  destruct (clamp_integral (Integral.round x) (round_not_NaN x Hx))
    as (s & _ & Hclamp).
  eexists. apply (computeReward_of_clamped x s Hx Hclamp).
Qed.

Lemma award_returns (h : heap) (id : string) (l : loc) (x : number) :
  id <> "" -> Num.isNaN x = false ->
  exists a h',
    awardTokensToBalance h (VStr id) (Ref l) (VNum x) = (Return a, h').
Proof.
  intros Hid Hx. unfold awardTokensToBalance.
  assert (String.eqb id "" = false) as -> by (by apply String.eqb_neq).
  destruct (computeReward_returns x Hx) as [r ->]. cbn [negb].
  destruct (alloc h ∅) as [l' h']. eauto.
Qed.

Lemma cli_minerId (rest : list string) :
  exists id, id <> "" /\
    or_else (nth 0 (map VStr rest) VUndefined) (VStr "test-miner") = VStr id.
Proof.
  destruct rest as [| s rest]; [by exists "test-miner" |].
  cbn [map nth]. unfold or_else, truthy.
  destruct (String.eqb s "") eqn:E; cbn [negb].
  - by exists "test-miner".
  - exists s. split; [by apply String.eqb_neq | reflexivity].
Qed.

(** X15. The script of rewardEngine.js exits with 0 without arguments,
    with 2 when the score is not a number and with 0 otherwise, whatever
    the miner id: the handler that exits with 1 is never entered.  A run
    that exits with 0 writes to the standard output only. *)
Theorem cli_exit_code (argv : list string) :
  let run := main JSON_stringify_indented inspect argv in
  exit_code run
  = match argv with
    | [] => 0
    | scoreRaw :: _ => if Num.isNaN (StringToNumber scoreRaw) then 2 else 0
    end
  /\ (exit_code run = 0 ->
      Forall (fun line => line.1 = Stdout) (printed run)).
Proof.
  unfold main. destruct argv as [| scoreRaw rest].
  { split; [reflexivity |]. intros _. repeat constructor. }
  destruct (Num.isNaN (StringToNumber scoreRaw)) eqn:Hnan.
  { split; [reflexivity | discriminate]. }
  destruct (computeReward_returns _ Hnan) as [r ->].
  destruct (cli_minerId rest) as (id & Hid & ->).
  destruct (alloc ∅ ∅) as [l0 h0].
  destruct (award_returns h0 id l0 _ Hid Hnan) as (a & h' & ->).
  split; [reflexivity |]. intros _. repeat constructor.
Qed.
End CliProperties.

Section DigestProperties.
Import Digests.
Context `{Runtime} `{Algorithms}.

Lemma hashAll_of_parts (items : list jsval) (parts : list (list byte))
    (algorithm : jsval) :
  rmap HashUtils.toBuffer items = Return parts ->
  hashAll (VArr items) algorithm
  = hashAll (VArr [VBuf (concat parts)]) algorithm.
Proof.
  intros Hparts. unfold hashAll. rewrite Hparts.
  cbn [rmap HashUtils.toBuffer rbind Buffer_concat concat].
  by rewrite app_nil_r.
Qed.

(** X16. hashAll hashes the concatenation of its inputs and nothing
    else: two lists whose buffers concatenate to the same bytes, such as
    ["ab", "c"] and ["a", "bc"], have the same result under every
    algorithm.  Under the default algorithm the result is the SHA-256
    of the concatenation. *)
Theorem hashAll_hashes_the_concatenation
    (items1 items2 : list jsval) (parts1 parts2 : list (list byte))
    (algorithm : jsval) :
  rmap HashUtils.toBuffer items1 = Return parts1 ->
  rmap HashUtils.toBuffer items2 = Return parts2 ->
  concat parts1 = concat parts2 ->
  hashAll (VArr items1) algorithm = hashAll (VArr items2) algorithm /\
  (String_toLowerCase "sha256" = "sha256" ->
   hashAll (VArr items1) VUndefined
   = (HashUtils.sha256 (VBuf (concat parts1)), [])).
Proof.
  intros H1 H2 Hc. split.
  - rewrite (hashAll_of_parts items1 parts1), (hashAll_of_parts items2 parts2)
      by assumption.
    by rewrite Hc.
  - intros Hlow. unfold hashAll. rewrite H1. cbn [default_param].
    by rewrite Hlow.
Qed.
End DigestProperties.

(** The theorem on ["ab", "c"] and ["a", "bc"]: with the algorithm
    SHA256 the two digests are equal, and by default the digest is the one
    of "abc". *)
Lemma hashAll_hashes_the_concatenation_witness :
  Digests.hashAll (H := Reference.runtime) (H0 := Digests.plain)
    (VArr [VStr "ab"; VStr "c"]) (VStr "SHA256")
  = Digests.hashAll (H := Reference.runtime) (H0 := Digests.plain)
      (VArr [VStr "a"; VStr "bc"]) (VStr "SHA256") /\
  Digests.hashAll (H := Reference.runtime) (H0 := Digests.plain)
    (VArr [VStr "ab"; VStr "c"]) VUndefined
  = (Return
       "ba7816bf8f01cfea414140de5dae2223b00361a396177a9cb410ff61f20015ad",
     []).
Proof.
  destruct (hashAll_hashes_the_concatenation
              (H := Reference.runtime) (H0 := Digests.plain)
              [VStr "ab"; VStr "c"] [VStr "a"; VStr "bc"]
              [utf8 "ab"; utf8 "c"] [utf8 "a"; utf8 "bc"] (VStr "SHA256")
              eq_refl eq_refl eq_refl) as [Hsame Hdefault].
  split; [exact Hsame |].
  rewrite (Hdefault eq_refl). vm_compute. reflexivity.
Defined.


(** The theorem at the score 72.5, which rounds to 73. *)
Lemma computeReward_score_is_fixed_point_witness :
  let r := {| RewardEngine.score := Int 73; RewardEngine.tokens := 3;
              RewardEngine.category := "Medium Entropy";
              RewardEngine.reason :=
                "Score between 50 and 80: medium reward bracket" |} in
  RewardEngine.computeReward (VNum (Num.div (Num.of_Z 145) (Num.of_Z 2)))
  = Return r /\
  RewardEngine.computeReward (VNum (Num.of_Z 73)) = Return r.
Proof.
  intros r.
  assert (RewardEngine.computeReward
            (VNum (Num.div (Num.of_Z 145) (Num.of_Z 2))) = Return r) as Hr
    by (vm_compute; reflexivity).
  split; [exact Hr |].
  exact (computeReward_score_is_fixed_point _ r Hr).
Defined.

(** The theorem at the scores 49.5 and 80. *)
Lemma computeReward_monotone_witness :
  value_le (Num.div (Num.of_Z 99) (Num.of_Z 2)) (Num.of_Z 80) /\
  exists rx ry,
    RewardEngine.computeReward (VNum (Num.div (Num.of_Z 99) (Num.of_Z 2)))
    = Return rx /\
    RewardEngine.computeReward (VNum (Num.of_Z 80)) = Return ry /\
    Integral.le (RewardEngine.score rx) (RewardEngine.score ry) = true /\
    RewardEngine.tokens rx <= RewardEngine.tokens ry.
Proof.
  assert (value_le (Num.div (Num.of_Z 99) (Num.of_Z 2)) (Num.of_Z 80)) as Hle
    by (vm_compute; discriminate).
  split; [exact Hle |].
  eexists. eexists. split; [reflexivity |]. split; [reflexivity |].
  exact (computeReward_monotone _ _ _ _ Hle eq_refl eq_refl).
Defined.

Section LedgerMore.
Import RewardEngine.
Context `{Runtime}.

End LedgerMore.

